(** * Zendesk Help Center exporter: a shallow embedding of
      [download-data-api.py] and the properties of its paginated fetcher,
      attachment resolver and export stages.

    The exporter is sequential Python over an HTTP session and a directory.
    It is embedded as state-passing code over
    - [pyval], the Python values the program handles (what [json] parsing
      yields, and the records the program builds itself);
    - [world], what the environment answers: the n-th [session.get] of the
      run receives [responses w n]; [accepts w p] says whether opening the
      path [p] for writing succeeds; [now w] is the text [time.strftime]
      returns; [recursion_limit w] is the number of nested retries the
      interpreter's stack has room for, and [sleep_limit w] the longest
      delay the platform's sleep takes;
    - [state], what the run has done so far: the targets of the requests it
      issued, the delays it slept, and what it wrote under each path.
    Python exceptions are results ([Raise]); the [while] loop and the
    recursive retry of [make_request] take fuel, and [OutOfFuel] stands for a
    run that has not come back yet.

    Limits of the model, chosen once and used throughout:
    - characters are code points below 256 (Rocq's [ascii]); on those,
      Python's [\d] is [0-9];
    - [print] is not modelled, nor is the counter [total_attachments] that
      only feeds a [print]; the constructor (session headers, [os.makedirs])
      and [main] (the prompt) are before the run and not modelled either;
    - [response.json()] on a body that is not JSON raises a [requests]
      exception (as in requests 2.27 and later, where [JSONDecodeError]
      derives from [RequestException]); a body on which the decoder raises
      anything else (an integer literal beyond the interpreter's digit
      limit, nesting beyond its stack) is [DecoderRaises];
    - [files] records what the program wrote under each path as the program
      spells it.  Two spellings of one file (through [..], an absolute
      prefix, a link) are two keys: nothing is stated here about what a
      path holds after a write under another spelling. *)

From Stdlib Require Import ZArith String Ascii List DecimalString DecimalNat DecimalPos DecimalZ QArith Lia.
From stdpp Require Import gmap strings list.

Local Open Scope string_scope.
Local Open Scope Z_scope.
Local Open Scope list_scope.

(** ** Python values *)

(** A Python [dict] keeps its keys in insertion order and [json.dump] writes
    them in that order, so a dict is an association list.  A float is kept as
    the text [repr] gives for it: the program never computes with one. *)
#[warnings="-register-all"] Inductive pyval : Type :=
| VNone
| VBool (b : bool)
| VInt (z : Z)
| VFloat (repr : string)
| VStr (s : string)
| VList (l : list pyval)
| VDict (d : list (string * pyval)).

Definition dict := list (string * pyval).

Definition dquote : ascii := "034"%char.
Definition squote : ascii := "039"%char.
Definition backslash : ascii := "092"%char.

Module Dict.

(** [d.get(k)] / [k in d]. *)
Fixpoint get (k : string) (d : dict) : option pyval :=
  match d with
  | [] => None
  | (k', v) :: d' => if String.eqb k k' then Some v else get k d'
  end.

(** [d[k] = v]: an existing key keeps its place, a new one goes last. *)
Fixpoint set (k : string) (v : pyval) (d : dict) : dict :=
  match d with
  | [] => [(k, v)]
  | (k', v') :: d' =>
      if String.eqb k k' then (k, v) :: d' else (k', v') :: set k v d'
  end.

(** The dict without the key [k] (used to state what is left untouched). *)
Fixpoint remove (k : string) (d : dict) : dict :=
  match d with
  | [] => []
  | (k', v') :: d' =>
      if String.eqb k k' then remove k d' else (k', v') :: remove k d'
  end.

Definition keys (d : dict) : list string := map fst d.

End Dict.

(** ** Built-ins *)

(** Truth value of a Python object ([if x:], [while x:], [not x]). *)
Definition py_truthy (v : pyval) : bool :=
  match v with
  | VNone => false
  | VBool b => b
  | VInt z => negb (z =? 0)
  | VFloat r => negb (String.eqb r "0.0" || String.eqb r "-0.0")
  | VStr s => negb (String.eqb s "")
  | VList l => match l with [] => false | _ => true end
  | VDict d => match d with [] => false | _ => true end
  end.

(** Decimal text of a natural number and of an integer ([str(n)]). *)
Definition dec (n : nat) : string := NilEmpty.string_of_uint (Nat.to_uint n).
Definition dec_Z (z : Z) : string := NilZero.string_of_int (Z.to_int z).

Definition is_digit (a : ascii) : bool :=
  let n := nat_of_ascii a in (48 <=? n)%nat && (n <=? 57)%nat.

Definition hex_digit (n : nat) : ascii :=
  if (n <? 10)%nat then ascii_of_nat (48 + n) else ascii_of_nat (87 + n).

(** [str.isprintable] on one character below 256. *)
Definition is_printable (a : ascii) : bool :=
  let n := nat_of_ascii a in
  ((32 <=? n)%nat && (n <=? 126)%nat)
  || ((161 <=? n)%nat && negb (n =? 173)%nat).

Fixpoint contains_char (c : ascii) (s : string) : bool :=
  match s with
  | EmptyString => false
  | String a s' => Ascii.eqb a c || contains_char c s'
  end.

(** [repr] of a [str]: single quotes unless the text has one and no double
    quote; the quote and the backslash escaped, [\t \n \r] named, every
    other unprintable character as [\xNN]. *)
Definition repr_char (q : ascii) (a : ascii) : string :=
  let n := nat_of_ascii a in
  if Ascii.eqb a q || Ascii.eqb a backslash then String backslash (String a "")
  else if (n =? 9)%nat then String backslash "t"
  else if (n =? 10)%nat then String backslash "n"
  else if (n =? 13)%nat then String backslash "r"
  else if is_printable a then String a ""
  else String backslash
         (String "x" (String (hex_digit (n / 16)) (String (hex_digit (n mod 16)) ""))).

Fixpoint repr_chars (q : ascii) (s : string) : string :=
  match s with
  | EmptyString => ""
  | String a s' => repr_char q a +:+ repr_chars q s'
  end.

Definition repr_str (s : string) : string :=
  let q := if contains_char squote s && negb (contains_char dquote s)
           then dquote else squote in
  String q (repr_chars q s +:+ String q "").

Fixpoint join (sep : string) (l : list string) : string :=
  match l with
  | [] => ""
  | [x] => x
  | x :: l' => x +:+ sep +:+ join sep l'
  end.

(** [repr(v)]. *)
Fixpoint py_repr (v : pyval) : string :=
  match v with
  | VNone => "None"
  | VBool true => "True"
  | VBool false => "False"
  | VInt z => dec_Z z
  | VFloat r => r
  | VStr s => repr_str s
  | VList l => "[" +:+ join ", " (map py_repr l) +:+ "]"
  | VDict d =>
      "{" +:+ join ", " (map (fun kv => repr_str (fst kv) +:+ ": " +:+ py_repr (snd kv)) d)
          +:+ "}"
  end.

(** [str(v)], which an f-string applies to each of its fields. *)
Definition py_str (v : pyval) : string :=
  match v with
  | VStr s => s
  | _ => py_repr v
  end.

(** [len(l)] as a Python integer. *)
Definition py_len (l : list pyval) : pyval := VInt (Z.of_nat (length l)).

Fixpoint chars (s : string) : list pyval :=
  match s with
  | EmptyString => []
  | String a s' => VStr (String a "") :: chars s'
  end.

(** What [for x in v] and [list.extend(v)] go through; [None] when [v] is
    not iterable (a [TypeError]). *)
Definition py_iter (v : pyval) : option (list pyval) :=
  match v with
  | VList l => Some l
  | VStr s => Some (chars s)
  | VDict d => Some (map VStr (Dict.keys d))
  | _ => None
  end.

(** *** [int(text)] *)

(** The blanks [int] skips around the number: the ASCII ones ([\t \n \v \f
    \r] and the space) and, above 127, the characters Unicode calls spaces
    (U+0085 and U+00A0 below 256).  The separators U+001C..U+001F are not
    among them: [str.strip] removes them, [int] does not. *)
Definition is_space (a : ascii) : bool :=
  let n := nat_of_ascii a in
  ((9 <=? n)%nat && (n <=? 13)%nat) || (n =? 32)%nat
  || (n =? 133)%nat || (n =? 160)%nat.

Fixpoint lstrip (s : string) : string :=
  match s with
  | String a s' => if is_space a then lstrip s' else s
  | EmptyString => s
  end.

Definition strip (s : string) : string :=
  String.rev (lstrip (String.rev (lstrip s))).

(** Digits, with single underscores allowed between two digits. *)
Fixpoint int_digits (s : string) (acc : Z) (after_digit : bool) : option Z :=
  match s with
  | EmptyString => if after_digit then Some acc else None
  | String a s' =>
      if is_digit a
      then int_digits s' (10 * acc + Z.of_nat (nat_of_ascii a - 48)) true
      else if Ascii.eqb a "_" && after_digit then int_digits s' acc false
      else None
  end.

Fixpoint count_digits (s : string) : nat :=
  match s with
  | EmptyString => O
  | String a s' => if is_digit a then S (count_digits s') else count_digits s'
  end.

(** CPython refuses to convert a text of more than 4300 digits
    ([sys.get_int_max_str_digits()], the default). *)
Definition int_max_str_digits : nat := 4300.

Definition int_body (s : string) : option Z :=
  if (int_max_str_digits <? count_digits s)%nat then None
  else int_digits s 0 false.

(** [int(s)] for a [str]; [None] is the [ValueError]. *)
Definition py_int (s : string) : option Z :=
  match strip s with
  | String "-" s' => option_map Z.opp (int_body s')
  | String "+" s' => int_body s'
  | s' => int_body s'
  end.

(** *** [os.path.join] (POSIX) *)

Definition ends_with_slash (s : string) : bool :=
  match String.rev s with
  | String "/" _ => true
  | _ => false
  end.

Definition path_join2 (a b : string) : string :=
  match b with
  | String "/" _ => b
  | _ => if String.eqb a "" || ends_with_slash a then a +:+ b else a +:+ "/" +:+ b
  end.

Definition os_path_join (a : string) (rest : list string) : string :=
  fold_left path_join2 rest a.

(** ** The environment and the run's state *)

(** The exceptions the program can let escape. *)
Inductive exn : Type :=
| KeyError (k : string)
| TypeError
| AttributeError
| ValueError
| OverflowError
| OSError
| RecursionError.

(** What [response.json()] makes of a body: a value, a [requests]
    exception when the body is not JSON, or another exception the decoder
    lets out. *)
Inductive decoded : Type :=
| Json (data : pyval)
| NotJson
| DecoderRaises (e : exn).

(** What [session.get] returns: the status code, the [Retry-After] header
    when there is one, the raw body, and what [response.json()] makes of
    it. *)
Record reply : Type := {
  status_code : Z;
  retry_after : option string;
  content : string;
  json_body : decoded
}.

(** [ConnError]: [session.get] raised a [requests] exception (connection
    error, timeout, invalid URL). *)
Inductive response : Type :=
| ConnError
| Reply (r : reply).

(** [recursion_limit]: how many times [make_request] can call itself
    before the interpreter's stack is full (under CPython's default limit
    of 1000 frames, about 980); the retry after that one is not made.  The
    room depends on the interpreter's limit and on the frames already on
    the stack where [make_request] is called; the model takes one number
    for a run, the room at the deepest place the program calls it from.
    [sleep_limit]: the longest delay, in seconds, the platform's sleep
    takes without an error; it is at least one second. *)
Record world : Type := {
  responses : nat -> response;
  accepts : string -> bool;
  now : string;
  recursion_limit : nat;
  sleep_limit : positive
}.

Inductive file : Type :=
| FBytes (s : string)     (* [f.write(response.content)] *)
| FJson (v : pyval).      (* [json.dump(v, f, indent=2, ensure_ascii=False)] *)

Record state : Type := {
  requests : list pyval;          (* targets of the GETs issued, oldest first *)
  sleeps : list Q;                (* arguments of [time.sleep], in seconds *)
  files : gmap string file        (* what was written, by path as spelled *)
}.

Definition initial : state := {| requests := []; sleeps := []; files := ∅ |}.

Definition log_request (url : pyval) (st : state) : state :=
  {| requests := requests st ++ [url]; sleeps := sleeps st; files := files st |}.

Definition log_sleep (d : Q) (st : state) : state :=
  {| requests := requests st; sleeps := sleeps st ++ [d]; files := files st |}.

Definition put_file (path : string) (f : file) (st : state) : state :=
  {| requests := requests st; sleeps := sleeps st; files := <[path := f]> (files st) |}.

Inductive outcome (A : Type) : Type :=
| Done (a : A) (st : state)
| Raise (e : exn) (st : state)
| OutOfFuel.

Arguments Done {A} a st.
Arguments Raise {A} e st.
Arguments OutOfFuel {A}.

(** The state a run ends in, by a result or by an exception. *)
Definition final_state {A} (o : outcome A) : option state :=
  match o with
  | Done _ st => Some st
  | Raise _ st => Some st
  | OutOfFuel => None
  end.

(** A computation of the exporter: state in, value or exception out. *)
Definition M (A : Type) : Type := state -> outcome A.

Definition ret {A} (a : A) : M A := fun st => Done a st.

Definition bind {A B} (m : M A) (k : A -> M B) : M B :=
  fun st =>
    match m st with
    | Done a st' => k a st'
    | Raise e st' => Raise e st'
    | OutOfFuel => OutOfFuel
    end.

Definition raise {A} (e : exn) : M A := fun st => Raise e st.

(** [try: m  except Exception: h]. *)
Definition try_except {A} (m : M A) (h : M A) : M A :=
  fun st =>
    match m st with
    | Raise _ st' => h st'
    | o => o
    end.

Notation "'let!' x ':=' m 'in' k" := (bind m (fun x => k))
  (at level 10, x name, m at level 100, k at level 200).

(** [d[k]]: the value, or [KeyError]. *)
Definition subscript (d : dict) (k : string) : M pyval :=
  match Dict.get k d with
  | Some v => ret v
  | None => raise (KeyError k)
  end.

(** [v[k]] for a string key [k] on any value: only a dict can answer. *)
Definition py_getitem (v : pyval) (k : string) : M pyval :=
  match v with
  | VDict d => subscript d k
  | _ => raise TypeError
  end.

(** CPython keeps a delay as a signed 64-bit count of nanoseconds: this
    many seconds fit, on either side of zero. *)
Definition sleep_max : Z := 9223372036.

(** [int(response.headers.get('Retry-After', 60))]. *)
Definition retry_after_seconds (h : option string) : option Z :=
  match h with
  | None => Some 60
  | Some s => py_int s
  end.

(** [response.raise_for_status()] raises for 4xx and 5xx. *)
Definition http_error (status : Z) : bool := (400 <=? status) && (status <? 600).

(** ** Regular expressions

    The two patterns of [extract_attachments_from_html] use literal text,
    [\d+], [[^c]*] and one capturing group.  The matcher below is the
    backtracking matcher of [re] restricted to those: every repetition is
    greedy and gives characters back when what follows fails. *)

Inductive regex : Type :=
| Lit (s : string)            (* literal text, as [re.escape] produces *)
| Digits                      (* [\d+] *)
| NoneOf (c : ascii)          (* [[^c]*] *)
| Group (r : regex)           (* [( r )] *)
| Cat (r1 r2 : regex).

(** [s] without its prefix [p], when it has it. *)
Fixpoint drop_prefix (p s : string) : option string :=
  match p, s with
  | EmptyString, _ => Some s
  | String a p', String b s' => if Ascii.eqb a b then drop_prefix p' s' else None
  | String _ _, EmptyString => None
  end.

(** Greedy [class*] followed by [k]: the longest run first, then shorter. *)
Fixpoint star {R} (class : ascii -> bool) (s : string) (k : string -> option R) : option R :=
  match s with
  | String a s' =>
      if class a
      then match star class s' k with
           | Some r => Some r
           | None => k s
           end
      else k s
  | EmptyString => k s
  end.

(** The text [s] has before its suffix [t]. *)
Definition consumed (s t : string) : string :=
  String.substring 0 (String.length s - String.length t) s.

(** [rmatch r s g k]: match [r] at the start of [s], then [k] on the rest;
    [g] is the text of group 1 so far. *)
Fixpoint rmatch {R} (r : regex) (s : string) (g : option string)
    (k : string -> option string -> option R) : option R :=
  match r with
  | Lit p =>
      match drop_prefix p s with
      | Some s' => k s' g
      | None => None
      end
  | Digits =>
      match s with
      | String a s' => if is_digit a then star is_digit s' (fun t => k t g) else None
      | EmptyString => None
      end
  | NoneOf c => star (fun a => negb (Ascii.eqb a c)) s (fun t => k t g)
  | Group r' => rmatch r' s g (fun t _ => k t (Some (consumed s t)))
  | Cat r1 r2 => rmatch r1 s g (fun t g' => rmatch r2 t g' k)
  end.

(** A match of [r] at the start of [s]: group 1 and what follows the match. *)
Definition match_here (r : regex) (s : string) : option (string * string) :=
  rmatch r s None (fun t g => Some (default "" g, t)).

(** [re.search(r, s).group(1)]: the leftmost match. *)
Fixpoint re_search (r : regex) (s : string) : option string :=
  match match_here r s with
  | Some (g, _) => Some g
  | None =>
      match s with
      | String _ s' => re_search r s'
      | EmptyString => None
      end
  end.

(** [re.findall(r, s)] for a pattern with one group: group 1 of every
    match, left to right, each search resuming where the last match ended
    ([skip] counts the characters of that match still to pass). *)
Fixpoint findall_from (r : regex) (s : string) (skip : nat) : list string :=
  match s with
  | EmptyString => []
  | String _ s' =>
      match skip with
      | S n => findall_from r s' n
      | O =>
          match match_here r s with
          | Some (g, t) => g :: findall_from r s' (String.length s - String.length t - 1)
          | None => findall_from r s' 0
          end
      end
  end.

Definition re_findall (r : regex) (s : string) : list string := findall_from r s 0.

Definition attachment_base : string :=
  "https://support.userology.co/hc/article_attachments/".

(** [r'https://support\.userology\.co/hc/article_attachments/(\d+)'] *)
Definition attachment_pattern : regex := Cat (Lit attachment_base) (Group Digits).

(** [<img[^>]*src=Q{re.escape(attachment_url)}Q[^>]*alt=Q( [^Q]* )Q], where
    [Q] stands for the double quote. *)
Definition img_pattern (attachment_url : string) : regex :=
  Cat (Lit "<img")
 (Cat (NoneOf ">")
 (Cat (Lit ("src=" +:+ String dquote (attachment_url +:+ String dquote "")))
 (Cat (NoneOf ">")
 (Cat (Lit ("alt=" +:+ String dquote ""))
 (Cat (Group (NoneOf dquote))
      (Lit (String dquote ""))))))).

Section Exporter.

Variable w : world.
Variable subdomain : string.

Definition base_url : string := "https://" +:+ subdomain +:+ ".zendesk.com/api/v2".
Definition hc_base_url : string :=
  "https://" +:+ subdomain +:+ ".zendesk.com/api/v2/help_center".
Definition export_dir : string := "zendesk_export_" +:+ subdomain.

(** [self.session.get(url)]: the next answer of the world. *)
Definition session_get (url : pyval) : state -> response * state :=
  fun st =>
    (responses w (length (requests st)), log_request url st).

(** [with open(path, mode) as f: ...write...]. *)
Definition write_file (path : string) (f : file) : M unit :=
  fun st =>
    if accepts w path
    then Done tt (put_file path f st)
    else Raise OSError st.

(** [time.sleep(d)].  The delay is first converted to nanoseconds
    ([OverflowError] outside the 64-bit range), then checked for its sign
    ([ValueError] when negative), then handed to the platform ([OSError]
    when it refuses the delay). *)
Definition time_sleep (d : Q) : M unit :=
  fun st =>
    if negb (Qle_bool (inject_Z (- sleep_max)) d && Qle_bool d (inject_Z sleep_max))
    then Raise OverflowError st
    else if negb (Qle_bool 0 d) then Raise ValueError st
    else if negb (Qle_bool d (inject_Z (Z.pos (sleep_limit w)))) then Raise OSError st
    else Done tt (log_sleep d st).

(** *** [make_request] (lines 37-53) *)

(** The call of [make_request] that is [depth] retries deep.  None of the
    exceptions raised here is a [requests] exception, so none is caught by
    an enclosing call: each goes out through all of them. *)
Fixpoint make_request_at (fuel depth : nat) (url : pyval) (st : state) : outcome pyval :=
  match fuel with
  | O => OutOfFuel
  | S fuel' =>
      let (resp, st1) := session_get url st in
      match resp with
      | ConnError => Done VNone st1
      | Reply r =>
          if status_code r =? 429 then
            match retry_after_seconds (retry_after r) with
            | None => Raise ValueError st1
            | Some n =>
                if (recursion_limit w <=? depth)%nat then Raise RecursionError st1
                else
                  (let! _ := time_sleep (inject_Z n) in
                   make_request_at fuel' (S depth) url) st1
            end
          else if http_error (status_code r) then Done VNone st1
          else match json_body r with
               | Json data => Done data st1
               | NotJson => Done VNone st1
               | DecoderRaises e => Raise e st1
               end
      end
  end.

Definition make_request (fuel : nat) (url : pyval) : M pyval :=
  make_request_at fuel 0 url.

(** *** [get_all_paginated] (lines 55-72) *)

(** The [while url:] loop; [n] bounds its iterations. *)
Fixpoint get_all_loop (fuel n : nat) (key : string) (url : pyval)
    (all_items : list pyval) (st : state) : outcome (list pyval) :=
  if py_truthy url then
    match n with
    | O => OutOfFuel
    | S n' =>
        (let! data := make_request fuel url in
         if negb (py_truthy data) then ret all_items
         else
           match data with
           | VDict d =>
               match py_iter (default (VList []) (Dict.get key d)) with
               | None => raise TypeError
               | Some items =>
                   let url' := default VNone (Dict.get "next_page" d) in
                   let! _ := time_sleep (1 # 10) in
                   get_all_loop fuel n' key url' (all_items ++ items)
               end
           | _ => raise AttributeError
           end) st
    end
  else Done all_items st.

Definition get_all_paginated (fuel : nat) (endpoint key : string) : M (list pyval) :=
  get_all_loop fuel fuel key (VStr (hc_base_url +:+ "/" +:+ endpoint)) [].

(** *** [download_attachment] (lines 74-87) *)
Definition download_attachment (attachment_url : pyval) (filename : string) : M pyval :=
  fun st =>
    let (resp, st1) := session_get attachment_url st in
    match resp with
    | ConnError => Done VNone st1
    | Reply r =>
        if http_error (status_code r) then Done VNone st1
        else
          let filepath := os_path_join export_dir ["attachments"; filename] in
          try_except
            (let! _ := write_file filepath (FBytes (content r)) in ret (VStr filepath))
            (ret VNone) st1
    end.

(** *** [extract_attachments_from_html] (lines 89-118) *)

Definition original_filename_of (html_content attachment_id : string) : string :=
  match re_search (img_pattern (attachment_base +:+ attachment_id)) html_content with
  | Some alt => alt
  | None => "attachment_" +:+ attachment_id
  end.

Definition inline_filename (article_id : pyval) (i : nat) (original_filename : string) : string :=
  py_str article_id +:+ "_" +:+ dec (i + 1) +:+ "_" +:+ original_filename.

Definition inline_record (attachment_id : string) (filepath : pyval)
    (filename original_filename : string) : pyval :=
  VDict [("attachment_id", VStr attachment_id);
         ("original_url", VStr (attachment_base +:+ attachment_id));
         ("local_path", filepath);
         ("filename", VStr filename);
         ("original_filename", VStr original_filename)].

(** The [for i, attachment_id in enumerate(matches)] loop, from index [i]. *)
Fixpoint extract_loop (html_content : string) (article_id : pyval) (i : nat)
    (matches : list string) (attachments : list pyval) : M (list pyval) :=
  match matches with
  | [] => ret attachments
  | attachment_id :: rest =>
      let attachment_url := attachment_base +:+ attachment_id in
      let original_filename := original_filename_of html_content attachment_id in
      let filename := inline_filename article_id i original_filename in
      let! filepath := download_attachment (VStr attachment_url) filename in
      if py_truthy filepath
      then extract_loop html_content article_id (S i) rest
             (attachments ++ [inline_record attachment_id filepath filename original_filename])
      else extract_loop html_content article_id (S i) rest attachments
  end.

Definition extract_attachments_from_html (html_content article_id : pyval) : M (list pyval) :=
  match html_content with
  | VStr html => extract_loop html article_id 0 (re_findall attachment_pattern html) []
  | _ => raise TypeError
  end.

(** *** [export_articles] (lines 142-176) *)

Definition da : string := "downloaded_attachments".

(** [article['downloaded_attachments'].extend(recs)] (and [.append]). *)
Definition extend_records (recs : list pyval) (article : dict) : dict :=
  match Dict.get da article with
  | Some (VList l) => Dict.set da (VList (l ++ recs)) article
  | _ => article
  end.

Definition structured_record (original_url filepath : pyval) (filename : string) : pyval :=
  VDict [("original_url", original_url); ("local_path", filepath); ("filename", VStr filename)].

(** The [for attachment in article['attachments']] loop. *)
Fixpoint attachments_loop (article : dict) (l : list pyval) : M dict :=
  match l with
  | [] => ret article
  | attachment :: rest =>
      let! id := subscript article "id" in
      let! file_name := py_getitem attachment "file_name" in
      let filename := py_str id +:+ "_" +:+ py_str file_name in
      let! content_url := py_getitem attachment "content_url" in
      let! filepath := download_attachment content_url filename in
      if py_truthy filepath
      then let! original_url := py_getitem attachment "content_url" in
           attachments_loop
             (extend_records [structured_record original_url filepath filename] article) rest
      else attachments_loop article rest
  end.

(** The body of [for article in articles]. *)
Definition enrich_article (article : pyval) : M pyval :=
  match article with
  | VDict d =>
      let d0 := Dict.set da (VList []) d in
      let! d1 :=
        if py_truthy (default VNone (Dict.get "attachments" d0))
        then let! atts := subscript d0 "attachments" in
             match py_iter atts with
             | Some l => attachments_loop d0 l
             | None => raise TypeError
             end
        else ret d0 in
      let! d2 :=
        if py_truthy (default VNone (Dict.get "body" d1))
        then let! body := subscript d1 "body" in
             let! id := subscript d1 "id" in
             let! html_attachments := extract_attachments_from_html body id in
             ret (extend_records html_attachments d1)
        else ret d1 in
      ret (VDict d2)
  | _ => raise TypeError
  end.

Fixpoint enrich_articles (articles : list pyval) : M (list pyval) :=
  match articles with
  | [] => ret []
  | article :: rest =>
      let! article' := enrich_article article in
      let! rest' := enrich_articles rest in
      ret (article' :: rest')
  end.

Definition json_path (name : string) : string := export_dir +:+ "/" +:+ name.

Definition export_categories (fuel : nat) : M (list pyval) :=
  let! categories := get_all_paginated fuel "categories" "categories" in
  let! _ := write_file (json_path "categories.json") (FJson (VList categories)) in
  ret categories.

Definition export_sections (fuel : nat) : M (list pyval) :=
  let! sections := get_all_paginated fuel "sections" "sections" in
  let! _ := write_file (json_path "sections.json") (FJson (VList sections)) in
  ret sections.

Definition export_articles (fuel : nat) : M (list pyval) :=
  let! articles := get_all_paginated fuel "articles" "articles" in
  let! articles' := enrich_articles articles in
  let! _ := write_file (json_path "articles.json") (FJson (VList articles')) in
  ret articles'.

(** *** [export_themes] (lines 178-190) *)
Definition export_themes (fuel : nat) : M unit :=
  try_except
    (let! theme_data := make_request fuel (VStr (hc_base_url +:+ "/themes")) in
     if py_truthy theme_data
     then write_file (json_path "themes.json") (FJson theme_data)
     else ret tt)
    (ret tt).

(** *** [export_all] (lines 192-223) *)
Definition manifest_of (categories sections articles : list pyval) : pyval :=
  VDict [("export_date", VStr (now w));
         ("subdomain", VStr subdomain);
         ("base_url", VStr ("https://" +:+ subdomain +:+ ".zendesk.com"));
         ("total_categories", py_len categories);
         ("total_sections", py_len sections);
         ("total_articles", py_len articles)].

Definition export_all (fuel : nat) : M unit :=
  let manifest := [("export_date", VStr (now w));
                   ("subdomain", VStr subdomain);
                   ("base_url", VStr ("https://" +:+ subdomain +:+ ".zendesk.com"))] in
  let! categories := export_categories fuel in
  let! sections := export_sections fuel in
  let! articles := export_articles fuel in
  let! _ := export_themes fuel in
  let manifest :=
    Dict.set "total_articles" (py_len articles)
      (Dict.set "total_sections" (py_len sections)
         (Dict.set "total_categories" (py_len categories) manifest)) in
  write_file (json_path "manifest.json") (FJson (VDict manifest)).


(** ** Vocabulary of the statements *)

(** The world answers the requests number [n], [n+1], ... with [rs]. *)
Fixpoint serves (n : nat) (rs : list response) : Prop :=
  match rs with
  | [] => True
  | r :: rs' => responses w n = r /\ serves (S n) rs'
  end.

Definition is_429 (r : response) : bool :=
  match r with
  | ConnError => false
  | Reply rp => status_code rp =? 429
  end.

(** A 429 answer whose [Retry-After] is absent ([n = 60]) or reads as the
    integer [n], a delay [time.sleep] takes: not negative, within the
    64-bit range of nanoseconds and within what the platform accepts. *)
Definition throttled (r : response) (n : Z) : Prop :=
  is_429 r = true /\
  (exists rp, r = Reply rp /\ retry_after_seconds (retry_after rp) = Some n) /\
  0 <= n /\ n <= sleep_max /\ n <= Z.pos (sleep_limit w).

(** What [make_request] returns on an answer that is not a 429 (and on
    which the decoder raises nothing of its own). *)
Definition answer (r : response) : pyval :=
  match r with
  | ConnError => VNone
  | Reply rp =>
      if http_error (status_code rp) then VNone
      else match json_body rp with
           | Json data => data
           | _ => VNone
           end
  end.

(** The exception the decoder lets out, on an answer that gets decoded. *)
Definition decoder_error (r : response) : option exn :=
  match r with
  | ConnError => None
  | Reply rp =>
      if (status_code rp =? 429) || http_error (status_code rp) then None
      else match json_body rp with
           | DecoderRaises e => Some e
           | _ => None
           end
  end.

(** The body of a successful page answer: a JSON object. *)
Definition page_body (r : response) : option dict :=
  match r with
  | ConnError => None
  | Reply rp =>
      if (status_code rp =? 429) || http_error (status_code rp) then None
      else match json_body rp with
           | Json (VDict d) => Some d
           | _ => None
           end
  end.

(** The items a page lists under [key] (none when the key is missing). *)
Definition items_of (key : string) (r : response) : list pyval :=
  match page_body r with
  | Some d => match Dict.get key d with
              | Some (VList l) => l
              | _ => []
              end
  | None => []
  end.

Definition cursor_of (r : response) : pyval :=
  match page_body r with
  | Some d => default VNone (Dict.get "next_page" d)
  | None => VNone
  end.

(** A successful page answer whose [key] entry, when present, is a list. *)
Definition well_formed_page (key : string) (r : response) : Prop :=
  exists d, page_body r = Some d /\
            (Dict.get key d = None \/ exists l, Dict.get key d = Some (VList l)).

(** A request that failed for [make_request]: a network error, a 4xx/5xx
    status other than 429, or a body that is not JSON. *)
Definition failed (r : response) : Prop :=
  match r with
  | ConnError => True
  | Reply rp =>
      status_code rp <> 429 /\
      (http_error (status_code rp) = true \/ json_body rp = NotJson)
  end.

(** ** The request layer *)

Lemma length_log_request url st :
  length (requests (log_request url st)) = S (length (requests st)).
Proof. simpl. rewrite length_app. simpl. lia. Qed.

Lemma time_sleep_ok (n : Z) (st : state) :
  0 <= n -> n <= sleep_max -> n <= Z.pos (sleep_limit w) ->
  time_sleep (inject_Z n) st = Done tt (log_sleep (inject_Z n) st).
Proof.
  intros H0 H1 H2. unfold time_sleep.
  assert (Qle_bool (inject_Z (- sleep_max)) (inject_Z n) = true) as ->.
  { apply Qle_bool_iff. rewrite <- Zle_Qle. unfold sleep_max in *. lia. }
  assert (Qle_bool (inject_Z n) (inject_Z sleep_max) = true) as ->.
  { apply Qle_bool_iff. now rewrite <- Zle_Qle. }
  assert (Qle_bool 0 (inject_Z n) = true) as ->.
  { apply Qle_bool_iff. change 0%Q with (inject_Z 0). now rewrite <- Zle_Qle. }
  assert (Qle_bool (inject_Z n) (inject_Z (Z.pos (sleep_limit w))) = true) as ->.
  { apply Qle_bool_iff. now rewrite <- Zle_Qle. }
  reflexivity.
Qed.

(** The pause between two pages is a delay every platform takes. *)
Lemma pace_ok (st : state) : time_sleep (1 # 10) st = Done tt (log_sleep (1 # 10) st).
Proof.
  unfold time_sleep.
  assert (Qle_bool (1 # 10) (inject_Z (Z.pos (sleep_limit w))) = true) as ->.
  { apply Qle_bool_iff. unfold Qle. simpl. lia. }
  reflexivity.
Qed.

(** One answer that is not a 429 ends the call, at any depth. *)
Lemma make_request_at_final (fuel depth : nat) (url : pyval) (st : state) (r : response) :
  responses w (length (requests st)) = r ->
  is_429 r = false ->
  decoder_error r = None ->
  make_request_at (S fuel) depth url st = Done (answer r) (log_request url st).
Proof.
  intros Hr H429 Hdec. simpl. unfold session_get. rewrite Hr.
  destruct r as [|rp]; [reflexivity|]. simpl in *. rewrite H429 in *. simpl in Hdec.
  destruct (http_error (status_code rp)); [reflexivity|].
  destruct (json_body rp); [reflexivity|reflexivity|discriminate].
Qed.

Lemma make_request_final (fuel : nat) (url : pyval) (st : state) (r : response) :
  responses w (length (requests st)) = r ->
  is_429 r = false ->
  decoder_error r = None ->
  make_request (S fuel) url st = Done (answer r) (log_request url st).
Proof. apply make_request_at_final. Qed.

(** One 429 answer with room on the stack: sleep, then the same request
    again, one call deeper. *)
Lemma make_request_throttled (fuel depth : nat) (url : pyval) (st : state)
    (r : response) (n : Z) :
  responses w (length (requests st)) = r ->
  throttled r n ->
  (depth < recursion_limit w)%nat ->
  make_request_at (S fuel) depth url st
  = make_request_at fuel (S depth) url (log_sleep (inject_Z n) (log_request url st)).
Proof.
  intros Hr (H429 & (rp & -> & Hn) & H0 & H1 & H2) Hd. simpl. unfold session_get. rewrite Hr.
  simpl in H429. rewrite H429, Hn.
  destruct (Nat.leb_spec (recursion_limit w) depth) as [Hle|_]; [lia|].
  unfold bind. rewrite time_sleep_ok by assumption. reflexivity.
Qed.

(** A body on which the decoder raises: the exception is not a [requests]
    exception, so it goes out of [make_request]. *)
Lemma make_request_decoder_error (fuel : nat) (url : pyval) (st : state)
    (r : response) (e : exn) :
  responses w (length (requests st)) = r ->
  decoder_error r = Some e ->
  make_request (S fuel) url st = Raise e (log_request url st).
Proof.
  intros Hr Hdec. unfold make_request. simpl. unfold session_get. rewrite Hr.
  destruct r as [|rp]; [discriminate|]. simpl in Hdec.
  destruct (status_code rp =? 429); [discriminate|].
  destruct (http_error (status_code rp)); [discriminate|]. simpl in Hdec.
  destruct (json_body rp); try discriminate. now injection Hdec as ->.
Qed.


(** The state after [k] throttled attempts at [url]. *)
Definition after_retries (url : pyval) (ns : list Z) (st : state) : state :=
  {| requests := requests st ++ repeat url (length ns);
     sleeps := sleeps st ++ map inject_Z ns;
     files := files st |}.

Lemma length_after_retries url ns st :
  length (requests (after_retries url ns st)) = (length (requests st) + length ns)%nat.
Proof. simpl. now rewrite length_app, repeat_length. Qed.

Lemma make_request_retries (url : pyval) (ts : list response) (ns : list Z) :
  Forall2 throttled ts ns ->
  forall (fuel depth : nat) (st : state),
    serves (length (requests st)) ts ->
    (depth + length ns <= recursion_limit w)%nat ->
    make_request_at (length ns + fuel) depth url st
    = make_request_at fuel (depth + length ns) url (after_retries url ns st).
Proof.
  induction 1 as [|t n ts ns Ht _ IH]; intros fuel depth st Hs Hd.
  - simpl. rewrite Nat.add_0_r. unfold after_retries. simpl. rewrite !app_nil_r.
    now destruct st.
  - destruct Hs as [Hr Hs]. simpl length in *. simpl Nat.add.
    rewrite (make_request_throttled _ _ _ _ _ _ Hr Ht) by lia.
    rewrite IH.
    + replace (S depth + length ns)%nat with (depth + S (length ns))%nat by lia.
      f_equal. unfold after_retries, log_sleep, log_request. simpl.
      rewrite <- !app_assoc. reflexivity.
    + simpl. rewrite length_app. simpl. now rewrite Nat.add_1_r.
    + lia.
Qed.

Lemma serves_app (n : nat) (rs1 rs2 : list response) :
  serves n (rs1 ++ rs2) <-> serves n rs1 /\ serves (n + length rs1) rs2.
Proof.
  revert n. induction rs1 as [|r rs1 IH]; intros n; simpl.
  - rewrite Nat.add_0_r. tauto.
  - rewrite IH. replace (S n + length rs1)%nat with (n + S (length rs1))%nat by lia. tauto.
Qed.

Lemma requests_after_retries (url : pyval) (ns : list Z) (st st1 : state) :
  requests st1 = requests (after_retries url ns st) ++ [url] ->
  requests st1 = requests st ++ repeat url (S (length ns)).
Proof.
  intros ->. simpl. rewrite <- app_assoc. f_equal. symmetry. apply repeat_cons.
Qed.

(** [k] throttled answers within the stack's room, then an answer that is
    not a 429: [k+1] requests, [k] sleeps, and that answer is returned. *)
Lemma make_request_settles (url : pyval) (ts : list response) (ns : list Z)
    (r : response) (fuel : nat) (st : state) :
  Forall2 throttled ts ns ->
  is_429 r = false ->
  decoder_error r = None ->
  serves (length (requests st)) (ts ++ [r]) ->
  (length ns < fuel)%nat ->
  (length ns <= recursion_limit w)%nat ->
  make_request fuel url st = Done (answer r) (log_request url (after_retries url ns st)).
Proof.
  intros Hts H429 Hdec Hs Hfuel Hroom.
  apply serves_app in Hs as [Hs [Hr _]].
  rewrite (Forall2_length _ _ _ Hts), <- length_after_retries with (url := url) in Hr.
  unfold make_request.
  replace fuel with (length ns + S (fuel - S (length ns)))%nat by lia.
  rewrite (make_request_retries url ts ns Hts _ _ _ Hs) by (simpl; lia).
  now apply make_request_at_final.
Qed.

Lemma answer_failed (r : response) :
  failed r -> is_429 r = false /\ decoder_error r = None /\ answer r = VNone.
Proof.
  destruct r as [|rp]; simpl; [auto|]. intros [H429 H].
  apply Z.eqb_neq in H429. rewrite H429. simpl. repeat split.
  - destruct H as [-> | ->]; [reflexivity|]. now destruct (http_error _).
  - destruct H as [-> | ->]; [reflexivity|]. now destruct (http_error _).
Qed.

Lemma failed_no_page (r : response) : failed r -> page_body r = None.
Proof.
  destruct r as [|rp]; simpl; [auto|]. intros [_ [-> | ->]].
  - now rewrite orb_true_r.
  - now destruct (_ || _).
Qed.

Lemma page_body_answer (r : response) (d : dict) :
  page_body r = Some d ->
  is_429 r = false /\ decoder_error r = None /\ answer r = VDict d.
Proof.
  destruct r as [|rp]; simpl; [discriminate|].
  destruct (status_code rp =? 429); simpl; [discriminate|].
  destruct (http_error (status_code rp)); [discriminate|].
  destruct (json_body rp) as [[]| |]; try discriminate. intros [= ->]. auto.
Qed.

(** ** The pagination loop *)

Lemma loop_falsy (fuel n : nat) (key : string) (url : pyval) (acc : list pyval) (st : state) :
  py_truthy url = false -> get_all_loop fuel n key url acc st = Done acc st.
Proof. intros H. destruct n; simpl; now rewrite H. Qed.

Lemma loop_stop (fuel n : nat) (key : string) (url v : pyval) (acc : list pyval) (st st1 : state) :
  py_truthy url = true ->
  make_request fuel url st = Done v st1 ->
  py_truthy v = false ->
  get_all_loop fuel (S n) key url acc st = Done acc st1.
Proof. intros Hu Hm Hv. simpl. rewrite Hu. unfold bind. rewrite Hm, Hv. reflexivity. Qed.

Lemma loop_page (fuel n : nat) (key : string) (url : pyval) (d : dict)
    (items acc : list pyval) (st st1 : state) :
  py_truthy url = true ->
  make_request fuel url st = Done (VDict d) st1 ->
  d <> [] ->
  py_iter (default (VList []) (Dict.get key d)) = Some items ->
  get_all_loop fuel (S n) key url acc st
  = get_all_loop fuel n key (default VNone (Dict.get "next_page" d)) (acc ++ items)
      (log_sleep (1 # 10) st1).
Proof.
  intros Hu Hm Hd Hi. simpl. rewrite Hu. unfold bind at 1. rewrite Hm.
  destruct d as [|kv d']; [congruence|]. cbn [py_truthy negb].
  rewrite Hi. unfold bind. rewrite pace_ok. reflexivity.
Qed.

(** The items a well-formed page lists are what the loop iterates over. *)
Definition listed (key : string) (d : dict) (items : list pyval) : Prop :=
  (Dict.get key d = None /\ items = []) \/ Dict.get key d = Some (VList items).

Lemma listed_iter key d items :
  listed key d items -> py_iter (default (VList []) (Dict.get key d)) = Some items.
Proof. intros [[-> ->] | ->]; reflexivity. Qed.

Lemma well_formed_listed key r :
  well_formed_page key r ->
  exists d, page_body r = Some d /\ listed key d (items_of key r) /\
            cursor_of r = default VNone (Dict.get "next_page" d).
Proof.
  intros (d & Hd & Hk). exists d. unfold items_of, cursor_of, listed. rewrite Hd.
  repeat split; auto. destruct Hk as [-> | [l ->]]; auto.
Qed.

(** One iteration on a page object that [make_request] came back with. *)
Lemma loop_on_page (fuel n : nat) (key : string) (url : pyval) (d : dict)
    (items acc : list pyval) (st st0 : state) :
  py_truthy url = true ->
  make_request fuel url st = Done (VDict d) st0 ->
  listed key d items ->
  exists st1,
    requests st1 = requests st0 /\ files st1 = files st0 /\
    get_all_loop fuel (S n) key url acc st
    = get_all_loop fuel n key (default VNone (Dict.get "next_page" d)) (acc ++ items) st1.
Proof.
  intros Hu Hm Hl. destruct d as [|kv d'] eqn:Ed.
  - exists st0. repeat split.
    rewrite (loop_stop _ _ _ _ _ _ _ _ Hu Hm eq_refl).
    destruct Hl as [[_ ->] | Hl]; [|discriminate].
    rewrite app_nil_r. simpl default. now rewrite loop_falsy.
  - exists (log_sleep (1 # 10) st0). repeat split.
    rewrite <- Ed in *. apply loop_page; auto.
    + rewrite Ed. discriminate.
    + now apply listed_iter.
Qed.

(** One iteration on a successful page. *)
Lemma loop_successful_page (fuel n : nat) (key : string) (url : pyval) (r : response)
    (d : dict) (items acc : list pyval) (st : state) :
  py_truthy url = true ->
  responses w (length (requests st)) = r ->
  page_body r = Some d ->
  listed key d items ->
  exists st1,
    requests st1 = requests st ++ [url] /\ files st1 = files st /\
    get_all_loop (S fuel) (S n) key url acc st
    = get_all_loop (S fuel) n key (default VNone (Dict.get "next_page" d)) (acc ++ items) st1.
Proof.
  intros Hu Hr Hd Hl. destruct (page_body_answer _ _ Hd) as (H429 & Hdec & Ha).
  pose proof (make_request_final fuel url st r Hr H429 Hdec) as Hm. rewrite Ha in Hm.
  destruct (loop_on_page _ n key _ _ _ acc _ _ Hu Hm Hl) as (st1 & Hq & Hf & He).
  exists st1. now rewrite Hq, Hf.
Qed.


(** C9: a 429 answer whose [Retry-After] text is not an integer makes
    [make_request] raise [ValueError] out of [int(...)]: the handler for
    [requests] exceptions does not catch it, so there is no retry, no
    60-second fallback, no sleep and no [None] result. *)
Theorem retry_after_not_integer_raises (fuel : nat) (url : pyval) (st : state)
    (rp : reply) (text : string) :
  responses w (length (requests st)) = Reply rp ->
  status_code rp = 429 ->
  retry_after rp = Some text ->
  py_int text = None ->
  exists st1,
    make_request (S fuel) url st = Raise ValueError st1 /\
    requests st1 = requests st ++ [url] /\
    sleeps st1 = sleeps st.
Proof.
  intros Hr H429 Hh Hint. exists (log_request url st). repeat split.
  unfold make_request. simpl. unfold session_get. rewrite Hr, H429, Hh. simpl.
  now rewrite Hint.
Qed.

(** A page after which pagination goes on, and an answer that ends it. *)
Definition continuing (key : string) (r : response) : Prop :=
  well_formed_page key r /\ py_truthy (cursor_of r) = true.

Definition terminal (key : string) (r : response) : Prop :=
  failed r \/ (well_formed_page key r /\ py_truthy (cursor_of r) = false).

(** What [make_request] returns on an answer that ends pagination or
    carries it on. *)
Lemma terminal_answer (key : string) (r : response) :
  terminal key r -> is_429 r = false /\ decoder_error r = None.
Proof.
  intros [Hf | [(d & Hd & _) _]].
  - destruct (answer_failed _ Hf) as (? & ? & _). auto.
  - destruct (page_body_answer _ _ Hd) as (? & ? & _). auto.
Qed.

(** The last turn of the loop, on what [make_request] came back with. *)
Lemma loop_on_terminal (fuel n : nat) (key : string) (url : pyval) (last : response)
    (acc : list pyval) (st st0 : state) :
  py_truthy url = true ->
  make_request fuel url st = Done (answer last) st0 ->
  terminal key last ->
  exists st',
    get_all_loop fuel (S n) key url acc st = Done (acc ++ items_of key last) st' /\
    requests st' = requests st0 /\ files st' = files st0.
Proof.
  intros Hu Hm [Hf | [Hwf Hc]].
  - destruct (answer_failed _ Hf) as (_ & _ & Ha). rewrite Ha in Hm.
    exists st0. repeat split.
    rewrite (loop_stop _ _ _ _ _ _ _ _ Hu Hm eq_refl).
    unfold items_of. rewrite (failed_no_page _ Hf). now rewrite app_nil_r.
  - destruct (well_formed_listed _ _ Hwf) as (d & Hd & Hl & Hcur).
    destruct (page_body_answer _ _ Hd) as (_ & _ & Ha). rewrite Ha in Hm.
    destruct (loop_on_page _ n key _ _ _ acc _ _ Hu Hm Hl) as (st1 & Hq & Hf & He).
    exists st1. repeat split; auto. rewrite He, <- Hcur. now apply loop_falsy.
Qed.

Lemma loop_terminal (fuel n : nat) (key : string) (url : pyval) (last : response)
    (acc : list pyval) (st : state) :
  py_truthy url = true ->
  responses w (length (requests st)) = last ->
  terminal key last ->
  exists st',
    get_all_loop (S fuel) (S n) key url acc st = Done (acc ++ items_of key last) st' /\
    requests st' = requests st ++ [url] /\ files st' = files st.
Proof.
  intros Hu Hr Ht. destruct (terminal_answer _ _ Ht) as [H429 Hdec].
  pose proof (make_request_final fuel url st last Hr H429 Hdec) as Hm.
  destruct (loop_on_terminal _ n key _ _ acc _ _ Hu Hm Ht) as (st' & He & Hq & Hf).
  exists st'. auto.
Qed.

Lemma loop_pages (fuel : nat) (key : string) (pages : list response) :
  forall (last : response) (url : pyval) (acc : list pyval) (n : nat) (st : state),
    py_truthy url = true ->
    Forall (continuing key) pages ->
    terminal key last ->
    serves (length (requests st)) (pages ++ [last]) ->
    (length pages < n)%nat ->
    exists st',
      get_all_loop (S fuel) n key url acc st
      = Done (acc ++ concat (map (items_of key) (pages ++ [last]))) st' /\
      requests st' = requests st ++ url :: map cursor_of pages /\
      files st' = files st.
Proof.
  induction pages as [|p pages IH]; intros last url acc n st Hu Hpages Hlast Hs Hn.
  - destruct n as [|n]; [simpl in Hn; lia|]. destruct Hs as [Hr _].
    destruct (loop_terminal fuel n key url last acc st Hu Hr Hlast) as (st' & He & Hq & Hf).
    exists st'. simpl. rewrite app_nil_r. auto.
  - destruct n as [|n]; [simpl in Hn; lia|]. destruct Hs as [Hr Hs].
    apply Forall_cons_iff in Hpages as [[Hwf Hc] Hrest].
    destruct (well_formed_listed _ _ Hwf) as (d & Hd & Hl & Hcur).
    destruct (loop_successful_page fuel n key url p d _ acc st Hu Hr Hd Hl)
      as (st1 & Hreq & Hfiles & Heq).
    rewrite <- Hcur in Heq.
    destruct (IH last (cursor_of p) (acc ++ items_of key p) n st1 Hc Hrest Hlast)
      as (st' & He & Hq & Hf).
    + rewrite Hreq, length_app. simpl. now rewrite Nat.add_1_r.
    + simpl in Hn. lia.
    + exists st'. rewrite Heq, He, Hq, Hf, Hreq, Hfiles. repeat split.
      * simpl. now rewrite <- app_assoc.
      * now rewrite <- app_assoc.
Qed.

Lemma first_url_truthy (endpoint : string) :
  py_truthy (VStr (hc_base_url +:+ "/" +:+ endpoint)) = true.
Proof. reflexivity. Qed.

(** *** Pages behind rate limiting *)

(** One turn of the loop as the server sees it: the 429 answers that made
    [make_request] wait, with the delays they asked for, then the answer
    [make_request] came back with. *)
Record fetch : Type := {
  waited : list (response * Z);
  settled : response
}.

Definition fetch_answers (f : fetch) : list response :=
  map fst (waited f) ++ [settled f].

Definition script (fs : list fetch) : list response := concat (map fetch_answers fs).

(** The waits of a fetch are delays [time.sleep] takes, and they fit in the
    room the interpreter's stack leaves for retries. *)
Definition rate_limited (f : fetch) : Prop :=
  Forall (fun tn => throttled (fst tn) (snd tn)) (waited f) /\
  (length (waited f) <= recursion_limit w)%nat.

(** The requests a fetch puts in the log: its target, once per answer. *)
Definition attempts (url : pyval) (f : fetch) : list pyval :=
  repeat url (S (length (waited f))).

Lemma waits_throttled (l : list (response * Z)) :
  Forall (fun tn => throttled (fst tn) (snd tn)) l ->
  Forall2 throttled (map fst l) (map snd l).
Proof. induction 1; simpl; constructor; auto. Qed.

Lemma make_request_fetch (url : pyval) (f : fetch) (fuel : nat) (st : state) :
  rate_limited f ->
  is_429 (settled f) = false ->
  decoder_error (settled f) = None ->
  serves (length (requests st)) (fetch_answers f) ->
  (length (waited f) < fuel)%nat ->
  exists st0,
    make_request fuel url st = Done (answer (settled f)) st0 /\
    requests st0 = requests st ++ attempts url f /\
    files st0 = files st.
Proof.
  intros [Hw Hroom] H429 Hdec Hs Hfuel.
  exists (log_request url (after_retries url (map snd (waited f)) st)). split; [|split].
  - apply make_request_settles with (ts := map fst (waited f)); auto.
    + now apply waits_throttled.
    + now rewrite length_map.
    + now rewrite length_map.
  - unfold attempts. rewrite <- (length_map snd).
    now apply requests_after_retries.
  - reflexivity.
Qed.

Lemma length_attempts (url : pyval) (f : fetch) :
  length (attempts url f) = length (fetch_answers f).
Proof.
  unfold attempts, fetch_answers. rewrite repeat_length, length_app, length_map. simpl. lia.
Qed.

Lemma loop_fetches (fuel : nat) (key : string) (pages : list fetch) :
  forall (last : fetch) (url : pyval) (acc : list pyval) (n : nat) (st : state),
    py_truthy url = true ->
    Forall (fun f => rate_limited f /\ continuing key (settled f)) pages ->
    rate_limited last ->
    terminal key (settled last) ->
    serves (length (requests st)) (script (pages ++ [last])) ->
    (length pages < n)%nat ->
    Forall (fun f => (length (waited f) < fuel)%nat) (pages ++ [last]) ->
    exists st',
      get_all_loop fuel n key url acc st
      = Done (acc ++ concat (map (fun f => items_of key (settled f)) (pages ++ [last]))) st' /\
      requests st'
      = requests st
        ++ concat (zip_with attempts (url :: map (fun f => cursor_of (settled f)) pages)
                     (pages ++ [last])) /\
      files st' = files st.
Proof.
  induction pages as [|p pages IH]; intros last url acc n st Hu Hpages Hrl Hlast Hs Hn Hfuel.
  - destruct n as [|n]; [simpl in Hn; lia|].
    unfold script in Hs. simpl in Hs. rewrite app_nil_r in Hs.
    apply Forall_cons_iff in Hfuel as [Hfuel _].
    destruct (terminal_answer _ _ Hlast) as [H429 Hdec].
    destruct (make_request_fetch url last fuel st Hrl H429 Hdec Hs Hfuel) as (st0 & Hm & Hq0 & Hf0).
    destruct (loop_on_terminal _ n key _ _ acc _ _ Hu Hm Hlast) as (st' & He & Hq & Hf).
    exists st'. simpl. rewrite !app_nil_r. rewrite Hq, Hf. auto.
  - destruct n as [|n]; [simpl in Hn; lia|].
    unfold script in Hs. simpl in Hs. apply serves_app in Hs as [Hsp Hs].
    apply Forall_cons_iff in Hpages as [[Hrp [Hwf Hc]] Hrest].
    apply Forall_cons_iff in Hfuel as [Hfp Hfuel].
    destruct (well_formed_listed _ _ Hwf) as (d & Hd & Hl & Hcur).
    destruct (page_body_answer _ _ Hd) as (H429 & Hdec & Ha).
    destruct (make_request_fetch url p fuel st Hrp H429 Hdec Hsp Hfp) as (st0 & Hm & Hq0 & Hf0).
    rewrite Ha in Hm.
    destruct (loop_on_page _ n key _ _ _ acc _ _ Hu Hm Hl) as (st1 & Hq1 & Hf1 & He1).
    rewrite <- Hcur in He1.
    destruct (IH last (cursor_of (settled p)) (acc ++ items_of key (settled p)) n st1
                Hc Hrest Hrl Hlast) as (st' & He & Hq & Hf).
    + rewrite Hq1, Hq0, length_app, length_attempts. exact Hs.
    + simpl in Hn. lia.
    + exact Hfuel.
    + exists st'. rewrite He1, He, Hq, Hf, Hq1, Hq0, Hf1, Hf0. repeat split.
      * simpl. now rewrite <- app_assoc.
      * simpl. now rewrite <- app_assoc.
Qed.

(** Without rate limiting every target is requested once. *)
Lemma attempts_direct (fs : list fetch) :
  forall targets : list pyval,
    length targets = length fs ->
    Forall (fun f => waited f = []) fs ->
    concat (zip_with attempts targets fs) = targets.
Proof.
  induction fs as [|f fs IH]; intros [|t targets] Hlen Hw; try discriminate; [reflexivity|].
  apply Forall_cons_iff in Hw as [Hf Hw]. simpl. unfold attempts at 1. rewrite Hf. simpl.
  f_equal. apply IH; auto.
Qed.

(** C1 (as amended): when the server answers with well-formed successful
    pages and then with a failed request or a page without cursor, each of
    them possibly behind 429 answers that [make_request] sits through,
    [get_all_paginated] returns the items of the pages, concatenated in
    page order and in the order within each page, nothing sorted or
    dropped.  Its requests go to the endpoint first and then to the cursor
    each page returned, each target once per answer it drew; so without
    rate limiting the log is the endpoint followed by the cursors, and no
    URL is requested twice when those targets are pairwise different. *)
Theorem paginated_concatenation (fuel : nat) (endpoint key : string)
    (pages : list fetch) (last : fetch) (st : state) :
  Forall (fun f => rate_limited f /\ continuing key (settled f)) pages ->
  rate_limited last ->
  terminal key (settled last) ->
  serves (length (requests st)) (script (pages ++ [last])) ->
  (length pages < fuel)%nat ->
  Forall (fun f => (length (waited f) < fuel)%nat) (pages ++ [last]) ->
  let targets :=
    VStr (hc_base_url +:+ "/" +:+ endpoint) :: map (fun f => cursor_of (settled f)) pages in
  exists (st' : state) (new : list pyval),
    get_all_paginated fuel endpoint key st
    = Done (concat (map (fun f => items_of key (settled f)) (pages ++ [last]))) st' /\
    requests st' = requests st ++ new /\
    new = concat (zip_with attempts targets (pages ++ [last])) /\
    (Forall (fun f => waited f = []) (pages ++ [last]) -> new = targets) /\
    (Forall (fun f => waited f = []) (pages ++ [last]) -> NoDup targets -> NoDup new).
Proof.
  intros Hpages Hrl Hlast Hs Hn Hfuel targets.
  destruct (loop_fetches fuel key pages last _ [] fuel st
              (first_url_truthy endpoint) Hpages Hrl Hlast Hs Hn Hfuel) as (st' & He & Hq & _).
  assert (Hdirect : Forall (fun f => waited f = []) (pages ++ [last]) ->
                    concat (zip_with attempts targets (pages ++ [last])) = targets).
  { apply attempts_direct. unfold targets. simpl.
    rewrite length_map, length_app. simpl. lia. }
  exists st', (concat (zip_with attempts targets (pages ++ [last]))).
  split; [exact He|]. split; [exact Hq|]. split; [reflexivity|]. split; [exact Hdirect|].
  intros Hw Hnd. now rewrite Hdirect.
Qed.

(** C3 (as amended): when, after the successful pages [pages], a request
    fails with a network error, a 4xx or 5xx status other than 429, or a
    body that is not JSON, [get_all_paginated] stops at that request and
    returns the items of the pages before it; nothing is raised. *)
Theorem failure_returns_partial_result (fuel : nat) (endpoint key : string)
    (pages : list response) (bad : response) (st : state) :
  Forall (continuing key) pages ->
  failed bad ->
  serves (length (requests st)) (pages ++ [bad]) ->
  (length pages < fuel)%nat ->
  exists st',
    get_all_paginated fuel endpoint key st = Done (concat (map (items_of key) pages)) st' /\
    requests st'
    = requests st ++ VStr (hc_base_url +:+ "/" +:+ endpoint) :: map cursor_of pages.
Proof.
  intros Hpages Hbad Hs Hfuel. destruct fuel as [|fuel]; [lia|].
  destruct (loop_pages fuel key pages bad _ [] (S fuel) st
              (first_url_truthy endpoint) Hpages (or_introl Hbad) Hs Hfuel)
    as (st' & He & Hq & _).
  exists st'. split.
  - unfold get_all_paginated. rewrite He. f_equal.
    rewrite map_app, concat_app. simpl. unfold items_of at 2.
    rewrite (failed_no_page _ Hbad). simpl. now rewrite !app_nil_r.
  - exact Hq.
Qed.

(** Requests are only ever added to the log: [make_request] adds its
    target, once per attempt. *)
Lemma make_request_at_log (url : pyval) :
  forall (fuel depth : nat) (st st' : state),
    final_state (make_request_at fuel depth url st) = Some st' ->
    exists k, requests st' = requests st ++ repeat url (S k).
Proof.
  induction fuel as [|fuel IH]; intros depth st st' H; [discriminate|].
  simpl in H. unfold session_get in H.
  destruct (responses w (length (requests st))) as [|rp].
  - injection H as <-. now exists 0%nat.
  - destruct (status_code rp =? 429).
    + destruct (retry_after_seconds (retry_after rp)) as [n|];
        [|injection H as <-; now exists 0%nat].
      destruct (recursion_limit w <=? depth)%nat; [injection H as <-; now exists 0%nat|].
      unfold bind, time_sleep in H.
      repeat match type of H with
             | context [if negb ?b then _ else _] =>
                 destruct (negb b); [injection H as <-; now exists 0%nat|]
             end.
      apply IH in H as [k Hk]. exists (S k). rewrite Hk. simpl.
      now rewrite <- app_assoc.
    + destruct (http_error (status_code rp)); [injection H as <-; now exists 0%nat|].
      destruct (json_body rp); injection H as <-; now exists 0%nat.
Qed.

Lemma make_request_log (url : pyval) (fuel : nat) (st st' : state) :
  final_state (make_request fuel url st) = Some st' ->
  exists k, requests st' = requests st ++ repeat url (S k).
Proof. apply make_request_at_log. Qed.

(** The loop on a true target starts with a request to that target. *)
Lemma loop_first_request (fuel : nat) (key : string) :
  forall (n : nat) (url : pyval) (acc : list pyval) (st st' : state),
    final_state (get_all_loop fuel n key url acc st) = Some st' ->
    if py_truthy url
    then exists rest, requests st' = requests st ++ url :: rest
    else st' = st.
Proof.
  induction n as [|n IH]; intros url acc st st' H; simpl in H;
    destruct (py_truthy url) eqn:Hu; try discriminate; try (now injection H as <-).
  unfold bind in H.
  destruct (make_request fuel url st) as [data s1|e s1|] eqn:Hm; try discriminate.
  - assert (final_state (make_request fuel url st) = Some s1) as Hlog by now rewrite Hm.
    apply make_request_log in Hlog as [k Hk].
    assert (Hext : forall s2, (exists more, requests s2 = requests s1 ++ more) ->
                              exists rest, requests s2 = requests st ++ url :: rest).
    { intros s2 [more Hs2]. exists (repeat url k ++ more).
      rewrite Hs2, Hk. simpl. now rewrite <- app_assoc. }
    destruct (negb (py_truthy data)).
    { injection H as <-. apply Hext. exists []. now rewrite app_nil_r. }
    destruct data; try (injection H as <-; apply Hext; exists []; now rewrite app_nil_r).
    destruct (py_iter _) as [items|];
      [|injection H as <-; apply Hext; exists []; now rewrite app_nil_r].
    rewrite pace_ok in H. apply IH in H. apply Hext.
    destruct (py_truthy (default VNone (Dict.get "next_page" d))).
    + destruct H as [rest Hr]. exists (default VNone (Dict.get "next_page" d) :: rest).
      exact Hr.
    + subst st'. exists []. simpl. now rewrite app_nil_r.
  - injection H as <-.
    assert (final_state (make_request fuel url st) = Some s1) as Hlog by now rewrite Hm.
    apply make_request_log in Hlog as [k Hk]. exists (repeat url k). exact Hk.
Qed.

(** C4 (as amended): on a successful page whose body is an object with the
    items under [key] in a list, or without that key, the loop appends the
    items (nothing when the key is missing) and goes on with the page's
    [next_page] cursor as its target.  When the cursor is a true value the
    next request of the run goes to it; when it is false the loop ends with
    what it has, and that is so for a missing cursor, for [null], and for a
    cursor that is present but empty or zero.  A page that lacks the item
    key has its cursor followed all the same. *)
Theorem page_appended_then_cursor_followed (fuel n : nat) (key : string) (url : pyval)
    (r : response) (d : dict) (items acc : list pyval) (st : state) :
  py_truthy url = true ->
  responses w (length (requests st)) = r ->
  page_body r = Some d ->
  listed key d items ->
  let cursor := default VNone (Dict.get "next_page" d) in
  exists st1,
    requests st1 = requests st ++ [url] /\
    get_all_loop (S fuel) (S n) key url acc st
    = get_all_loop (S fuel) n key cursor (acc ++ items) st1 /\
    (py_truthy cursor = false ->
     get_all_loop (S fuel) (S n) key url acc st = Done (acc ++ items) st1) /\
    (py_truthy cursor = true ->
     forall st', final_state (get_all_loop (S fuel) (S n) key url acc st) = Some st' ->
                 exists rest, requests st' = requests st ++ url :: cursor :: rest) /\
    (Dict.get key d = None -> items = []) /\
    (Dict.get "next_page" d = None \/ Dict.get "next_page" d = Some VNone \/
     Dict.get "next_page" d = Some (VStr "") \/ Dict.get "next_page" d = Some (VInt 0) \/
     Dict.get "next_page" d = Some (VBool false) ->
     py_truthy cursor = false).
Proof.
  intros Hu Hr Hd Hl cursor.
  destruct (loop_successful_page fuel n key url r d items acc st Hu Hr Hd Hl)
    as (st1 & Hreq & _ & Heq).
  exists st1. split; [assumption|]. split; [assumption|]. split; [|split; [|split]].
  - intros Hc. rewrite Heq. now apply loop_falsy.
  - intros Hc st' H. rewrite Heq in H. apply loop_first_request in H.
    fold cursor in H. rewrite Hc in H. destruct H as [rest Hrest].
    exists rest. rewrite Hrest, Hreq, <- app_assoc. reflexivity.
  - intros Hk. destruct Hl as [[_ ->] | Hl]; [reflexivity|congruence].
  - subst cursor. intros [-> | [-> | [-> | [-> | ->]]]]; reflexivity.
Qed.

(** ** Strings and dicts *)

Lemma append_nonempty (a b : string) : b <> "" -> a +:+ b <> "".
Proof. intros Hb. destruct a; simpl; [assumption|discriminate]. Qed.

Lemma truthy_nonempty (s : string) : s <> "" -> py_truthy (VStr s) = true.
Proof. intros Hs. destruct s; [now destruct Hs|reflexivity]. Qed.

Lemma path_join2_nonempty (a b : string) : b <> "" -> path_join2 a b <> "".
Proof.
  intros Hb. unfold path_join2. destruct b as [|c b']; [congruence|].
  assert (forall x, x +:+ String c b' <> "") as Happ
    by (intros x; now apply append_nonempty).
  destruct (Ascii.eqb c "/") eqn:Ec.
  - apply Ascii.eqb_eq in Ec. subst c. discriminate.
  - assert (forall y : string,
              (if String.eqb a "" || ends_with_slash a
               then a +:+ String c b' else a +:+ "/" +:+ String c b') = y ->
              y <> "") as Hy.
    { intros y <-. destruct (_ || _); [apply Happ|]. now apply append_nonempty. }
    destruct c as [[] [] [] [] [] [] [] []]; try (eapply Hy; reflexivity).
    discriminate.
Qed.

Fixpoint all_digits (s : string) : bool :=
  match s with
  | EmptyString => true
  | String a s' => is_digit a && all_digits s'
  end.










Lemma dict_get_set_eq (k : string) (v : pyval) (d : dict) : Dict.get k (Dict.set k v d) = Some v.
Proof.
  induction d as [|[k' v'] d IH]; simpl.
  - now rewrite String.eqb_refl.
  - destruct (String.eqb k k') eqn:E; simpl; rewrite ?String.eqb_refl, ?E; auto.
Qed.

Lemma dict_get_set_ne (k k' : string) (v : pyval) (d : dict) :
  k <> k' -> Dict.get k' (Dict.set k v d) = Dict.get k' d.
Proof.
  intros Hne. induction d as [|[k0 v0] d IH]; simpl.
  - apply not_eq_sym, String.eqb_neq in Hne. now rewrite Hne.
  - destruct (String.eqb k k0) eqn:E; simpl.
    + apply String.eqb_eq in E. subst k0.
      apply not_eq_sym, String.eqb_neq in Hne. now rewrite Hne.
    + now rewrite IH.
Qed.

Lemma dict_set_set (k : string) (v v' : pyval) (d : dict) :
  Dict.set k v (Dict.set k v' d) = Dict.set k v d.
Proof.
  induction d as [|[k0 v0] d IH]; simpl.
  - now rewrite String.eqb_refl.
  - destruct (String.eqb k k0) eqn:E; simpl; rewrite ?String.eqb_refl, ?E; congruence.
Qed.

Lemma dict_remove_set (k : string) (v : pyval) (d : dict) :
  Dict.remove k (Dict.set k v d) = Dict.remove k d.
Proof.
  induction d as [|[k0 v0] d IH]; simpl.
  - now rewrite String.eqb_refl.
  - destruct (String.eqb k k0) eqn:E; simpl; rewrite ?String.eqb_refl, ?E; congruence.
Qed.

Lemma dict_get_remove_ne (k k' : string) (d : dict) :
  k <> k' -> Dict.get k' (Dict.remove k d) = Dict.get k' d.
Proof.
  intros Hne. induction d as [|[k0 v0] d IH]; simpl; [reflexivity|].
  destruct (String.eqb k k0) eqn:E; simpl.
  - apply String.eqb_eq in E. subst k0.
    apply not_eq_sym, String.eqb_neq in Hne. now rewrite Hne.
  - now rewrite IH.
Qed.

(** A key that is there already: assigning its own value changes nothing. *)
Lemma dict_set_get_id (k : string) (v : pyval) (d : dict) :
  Dict.get k d = Some v -> Dict.set k v d = d.
Proof.
  induction d as [|[k0 v0] d IH]; simpl; [discriminate|].
  destruct (String.eqb k k0) eqn:E.
  - apply String.eqb_eq in E. now intros [= ->]; subst.
  - intros H. now rewrite IH.
Qed.



(** ** Downloads *)

Definition attachment_path (filename : string) : string :=
  os_path_join export_dir ["attachments"; filename].

(** A download yields a record: the answer is not an error status and the
    file can be written. *)
Definition download_ok (r : response) (filename : string) : bool :=
  match r with
  | ConnError => false
  | Reply rp => negb (http_error (status_code rp)) && accepts w (attachment_path filename)
  end.

Definition after_download (url : pyval) (filename : string) (st : state) : state :=
  match responses w (length (requests st)) with
  | Reply rp =>
      if download_ok (Reply rp) filename
      then put_file (attachment_path filename) (FBytes (content rp)) (log_request url st)
      else log_request url st
  | ConnError => log_request url st
  end.

Lemma download_attachment_spec (url : pyval) (filename : string) (st : state) :
  download_attachment url filename st
  = Done (if download_ok (responses w (length (requests st))) filename
          then VStr (attachment_path filename) else VNone)
         (after_download url filename st).
Proof.
  unfold download_attachment, after_download, session_get, download_ok.
  destruct (responses w (length (requests st))) as [|rp]; [reflexivity|].
  destruct (http_error (status_code rp)); [reflexivity|]. simpl.
  unfold try_except, bind, write_file, attachment_path.
  now destruct (accepts w _).
Qed.

Lemma requests_after_download url filename st :
  requests (after_download url filename st) = requests st ++ [url].
Proof.
  unfold after_download. destruct (responses w _) as [|rp]; [reflexivity|].
  now destruct (download_ok _ _).
Qed.

Lemma attachment_path_truthy (filename : string) :
  filename <> "" -> py_truthy (VStr (attachment_path filename)) = true.
Proof. intros H. apply truthy_nonempty. unfold attachment_path. simpl. now apply path_join2_nonempty. Qed.

(** ** The inline resolver *)

Lemma inline_filename_nonempty article_id i name : inline_filename article_id i name <> "".
Proof. unfold inline_filename. now apply append_nonempty. Qed.


(** What the [i]-th match contributes when the run has issued [c] requests
    before the resolver starts: a record, or nothing when its download
    fails. *)
Definition inline_outcome (html_content : string) (article_id : pyval) (c i : nat)
    (attachment_id : string) : option pyval :=
  let name := original_filename_of html_content attachment_id in
  let filename := inline_filename article_id i name in
  if download_ok (responses w (c + i)) filename
  then Some (inline_record attachment_id (VStr (attachment_path filename)) filename name)
  else None.

Lemma extract_loop_spec (html : string) (article_id : pyval) (c : nat) (ms : list string) :
  forall (i : nat) (acc : list pyval) (st : state),
    length (requests st) = (c + i)%nat ->
    exists st',
      extract_loop html article_id i ms acc st
      = Done (acc ++ omap id (imap (fun j => inline_outcome html article_id c (i + j)) ms)) st' /\
      requests st' = requests st ++ map (fun m => VStr (attachment_base +:+ m)) ms.
Proof.
  induction ms as [|m ms IH]; intros i acc st Hlen.
  - exists st. simpl. now rewrite !app_nil_r.
  - simpl extract_loop. unfold bind. rewrite download_attachment_spec.
    rewrite imap_cons. cbn [omap]. unfold inline_outcome at 1.
    rewrite Nat.add_0_r, Hlen.
    set (name := original_filename_of html m).
    set (filename := inline_filename article_id i name).
    set (st1 := after_download _ filename st).
    assert (Hlen1 : length (requests st1) = (c + S i)%nat).
    { subst st1. rewrite requests_after_download, length_app. simpl. lia. }
    assert (Himap : imap ((fun j => inline_outcome html article_id c (i + j)) ∘ S) ms
                    = imap (fun j => inline_outcome html article_id c (S i + j)) ms).
    { apply imap_ext. intros j x _. simpl. f_equal. lia. }
    rewrite Himap.
    destruct (download_ok (responses w (c + i)) filename).
    + rewrite attachment_path_truthy by apply inline_filename_nonempty.
      destruct (IH (S i) (acc ++ [inline_record m (VStr (attachment_path filename)) filename name])
                  st1 Hlen1) as (st' & He & Hq).
      exists st'. rewrite He, Hq. split.
      * simpl. now rewrite <- app_assoc.
      * subst st1. rewrite requests_after_download, <- app_assoc. reflexivity.
    + cbn [py_truthy].
      destruct (IH (S i) acc st1 Hlen1) as (st' & He & Hq).
      exists st'. rewrite He, Hq. split; [reflexivity|].
      subst st1. rewrite requests_after_download, <- app_assoc. reflexivity.
Qed.



(** ** Article enrichment *)

Lemma bind_done {A B} (m : M A) (k : A -> M B) (st st' : state) (b : B) :
  bind m k st = Done b st' ->
  exists a st1, m st = Done a st1 /\ k a st1 = Done b st'.
Proof. unfold bind. destruct (m st) as [a st1| |]; try discriminate. eauto. Qed.

Lemma subscript_done (d : dict) (k : string) (st st' : state) (v : pyval) :
  subscript d k st = Done v st' -> Dict.get k d = Some v /\ st' = st.
Proof.
  unfold subscript. destruct (Dict.get k d); [|discriminate].
  unfold ret. now intros [= -> ->].
Qed.

Lemma py_getitem_done (x : pyval) (k : string) (st st' : state) (v : pyval) :
  py_getitem x k st = Done v st' ->
  exists e, x = VDict e /\ Dict.get k e = Some v /\ st' = st.
Proof.
  destruct x; try discriminate. simpl. intros H.
  apply subscript_done in H as [H ->]. eauto.
Qed.

Definition structured_filename (id file_name : pyval) : string :=
  py_str id +:+ "_" +:+ py_str file_name.

Lemma structured_filename_nonempty id fn : structured_filename id fn <> "".
Proof. unfold structured_filename. now apply append_nonempty. Qed.

(** An entry of the article's [attachments]. *)
Definition declared_attachment (d : dict) (e : dict) : Prop :=
  exists atts l, Dict.get "attachments" d = Some atts /\ py_iter atts = Some l /\ In (VDict e) l.

(** The record of a structured attachment of the article [d]. *)
Definition is_structured_record (d : dict) (rec : pyval) : Prop :=
  exists id e file_name url,
    Dict.get "id" d = Some id /\
    declared_attachment d e /\
    Dict.get "file_name" e = Some file_name /\
    Dict.get "content_url" e = Some url /\
    rec = structured_record url (VStr (attachment_path (structured_filename id file_name)))
            (structured_filename id file_name).

(** The records of the inline attachments of the article [d]. *)
Definition inline_records_of (d : dict) (inline : list pyval) : Prop :=
  inline = [] \/
  exists html article_id c,
    Dict.get "body" d = Some (VStr html) /\ Dict.get "id" d = Some article_id /\
    inline = omap id (imap (inline_outcome html article_id c)
                        (re_findall attachment_pattern html)).

Lemma da_not_id : da <> "id".
Proof. discriminate. Qed.
Lemma da_not_body : da <> "body".
Proof. discriminate. Qed.
Lemma da_not_attachments : da <> "attachments".
Proof. discriminate. Qed.

Lemma extend_records_set (recs new : list pyval) (d : dict) :
  extend_records new (Dict.set da (VList recs) d) = Dict.set da (VList (recs ++ new)) d.
Proof. unfold extend_records. rewrite dict_get_set_eq. apply dict_set_set. Qed.

Lemma attachments_loop_spec (d0 : dict) :
  forall (l : list pyval) (recs : list pyval) (st st' : state) (d' : dict),
    (forall e, In (VDict e) l -> declared_attachment d0 e) ->
    attachments_loop (Dict.set da (VList recs) d0) l st = Done d' st' ->
    exists new,
      d' = Dict.set da (VList (recs ++ new)) d0 /\ Forall (is_structured_record d0) new.
Proof.
  induction l as [|x l IH]; intros recs st st' d' Hl H.
  - injection H as <- <-. exists []. now rewrite app_nil_r.
  - simpl in H.
    apply bind_done in H as (id & s1 & Hid & H). apply subscript_done in Hid as [Hid ->].
    rewrite dict_get_set_ne in Hid by apply da_not_id.
    apply bind_done in H as (fn & s1 & Hfn & H).
    apply py_getitem_done in Hfn as (e & -> & Hfn & ->).
    apply bind_done in H as (url & s1 & Hurl & H).
    apply py_getitem_done in Hurl as (e' & [= <-] & Hurl & ->).
    apply bind_done in H as (filepath & s1 & Hdl & H).
    rewrite download_attachment_spec in Hdl. injection Hdl as <- <-.
    fold (structured_filename id fn) in H.
    assert (Hl' : forall e0, In (VDict e0) l -> declared_attachment d0 e0)
      by (intros e0 He0; apply Hl; now right).
    destruct (download_ok _ _).
    + rewrite attachment_path_truthy in H by apply structured_filename_nonempty.
      apply bind_done in H as (url' & s1 & Hurl' & H).
      apply py_getitem_done in Hurl' as (e' & [= <-] & Hurl' & ->).
      assert (url' = url) as -> by congruence.
      rewrite extend_records_set in H.
      apply IH in H as (new & -> & Hnew); [|assumption].
      exists (structured_record url (VStr (attachment_path (structured_filename id fn)))
                (structured_filename id fn) :: new).
      split; [now rewrite <- app_assoc|].
      constructor; [|assumption].
      exists id, e, fn, url. repeat split; auto. apply Hl. now left.
    + cbn [py_truthy] in H. now apply IH in H.
Qed.

(** What [enrich_article] returns: the fetched record with
    [downloaded_attachments] set to the records of this run, structured
    ones first. *)
Lemma enrich_article_spec (d : dict) (st st' : state) (a' : pyval) :
  enrich_article (VDict d) st = Done a' st' ->
  exists structured inline,
    a' = VDict (Dict.set da (VList (structured ++ inline)) d) /\
    Forall (is_structured_record d) structured /\
    inline_records_of d inline.
Proof.
  unfold enrich_article. intros H.
  apply bind_done in H as (d1 & s1 & H1 & H).
  apply bind_done in H as (d2 & s2 & H2 & H). injection H as <- <-.
  assert (exists structured,
            d1 = Dict.set da (VList structured) d /\ Forall (is_structured_record d) structured)
    as (structured & -> & Hs).
  { rewrite dict_get_set_ne in H1 by apply da_not_attachments.
    destruct (py_truthy _); [|injection H1 as <- <-; now exists []].
    apply bind_done in H1 as (atts & s0 & Ha & H1). apply subscript_done in Ha as [Ha ->].
    rewrite dict_get_set_ne in Ha by apply da_not_attachments.
    destruct (py_iter atts) as [l|] eqn:Hit; [|discriminate].
    apply attachments_loop_spec in H1 as (new & -> & Hnew).
    - now exists new.
    - intros e He. now exists atts, l. }
  exists structured. clear H1.
  rewrite dict_get_set_ne in H2 by apply da_not_body.
  destruct (py_truthy _).
  - apply bind_done in H2 as (body & s0 & Hb & H2). apply subscript_done in Hb as [Hb ->].
    rewrite dict_get_set_ne in Hb by apply da_not_body.
    apply bind_done in H2 as (id & s0 & Hid & H2). apply subscript_done in Hid as [Hid ->].
    rewrite dict_get_set_ne in Hid by apply da_not_id.
    apply bind_done in H2 as (recs & s0 & He & H2). injection H2 as <- <-.
    destruct body as [| | | |html| |]; try discriminate.
    destruct (extract_loop_spec html id (length (requests s1))
                (re_findall attachment_pattern html) 0 [] s1) as (s' & He' & _); [lia|].
    simpl in He. rewrite He' in He. injection He as <- <-.
    eexists. rewrite extend_records_set. split; [reflexivity|]. split; [assumption|].
    right. exists html, id, (length (requests s1)). repeat split; auto.
  - injection H2 as <- <-. exists []. rewrite app_nil_r. repeat split; auto. now left.
Qed.





Lemma write_file_done (path : string) (f : file) (st st' : state) (u : unit) :
  write_file path f st = Done u st' -> accepts w path = true /\ st' = put_file path f st.
Proof. unfold write_file. destruct (accepts w path); [|discriminate]. now intros [= _ <-]. Qed.

Lemma enrich_articles_spec (articles : list pyval) :
  forall (st st' : state) (articles' : list pyval),
    enrich_articles articles st = Done articles' st' ->
    Forall2 (fun a a' => exists d s s', a = VDict d /\ enrich_article (VDict d) s = Done a' s')
      articles articles'.
Proof.
  induction articles as [|a articles IH]; intros st st' articles' H; simpl in H.
  - injection H as <- <-. constructor.
  - apply bind_done in H as (a' & s1 & Ha & H).
    apply bind_done in H as (rest' & s2 & Hrest & H). injection H as <- <-.
    constructor; [|now apply IH in Hrest].
    destruct a; try discriminate. eauto.
Qed.

Lemma export_articles_spec (fuel : nat) (st st' : state) (articles' : list pyval) :
  export_articles fuel st = Done articles' st' ->
  exists articles st1,
    get_all_paginated fuel "articles" "articles" st = Done articles st1 /\
    Forall2 (fun a a' => exists d s s', a = VDict d /\ enrich_article (VDict d) s = Done a' s')
      articles articles' /\
    files st' !! json_path "articles.json" = Some (FJson (VList articles')).
Proof.
  unfold export_articles. intros H.
  apply bind_done in H as (articles & s1 & Hget & H).
  apply bind_done in H as (arts' & s2 & Henrich & H).
  apply bind_done in H as (u & s3 & Hw & H). injection H as <- <-.
  apply write_file_done in Hw as [_ ->].
  exists articles, s1. split; [assumption|]. split; [now apply enrich_articles_spec in Henrich|].
  simpl. apply lookup_insert_eq.
Qed.

(** C8: whenever [export_articles] comes back, each article written to
    [articles.json] is the fetched record with one key touched: apart from
    [downloaded_attachments], it has the same fields with the same values in
    the same order, so they serialize to the same text. *)
Theorem other_fields_preserved (fuel : nat) (st st' : state) (articles' : list pyval) :
  export_articles fuel st = Done articles' st' ->
  exists articles st1,
    get_all_paginated fuel "articles" "articles" st = Done articles st1 /\
    files st' !! json_path "articles.json" = Some (FJson (VList articles')) /\
    Forall2 (fun a a' => exists d d',
                 a = VDict d /\ a' = VDict d' /\
                 Dict.remove da d' = Dict.remove da d /\
                 (forall k, k <> da -> Dict.get k d' = Dict.get k d))
      articles articles'.
Proof.
  intros H. apply export_articles_spec in H as (articles & st1 & Hget & Hall & Hfile).
  exists articles, st1. split; [assumption|]. split; [assumption|].
  eapply Forall2_impl; [exact Hall|].
  intros a a' (d & s & s' & -> & He).
  apply enrich_article_spec in He as (structured & inline & -> & _ & _).
  exists d, (Dict.set da (VList (structured ++ inline)) d).
  repeat split; [apply dict_remove_set|].
  intros k Hk. apply dict_get_set_ne. congruence.
Qed.

(** C10: [export_articles] assigns [downloaded_attachments] before it reads
    anything: whatever value the fetched record had under that key, the
    outcome is the one for any other value, and in [articles.json] the key
    holds the records of this run (computed from [id], [attachments] and
    [body]), not the upstream value. *)
Theorem upstream_downloaded_attachments_replaced :
  (forall (d : dict) (v v' : pyval) (st : state),
      enrich_article (VDict (Dict.set da v d)) st
      = enrich_article (VDict (Dict.set da v' d)) st) /\
  (forall (d : dict) (v : pyval) (st : state),
      Dict.get da d = Some v ->
      forall v', enrich_article (VDict d) st = enrich_article (VDict (Dict.set da v' d)) st) /\
  (forall (fuel : nat) (st st' : state) (articles' : list pyval),
      export_articles fuel st = Done articles' st' ->
      exists articles st1,
        get_all_paginated fuel "articles" "articles" st = Done articles st1 /\
        files st' !! json_path "articles.json" = Some (FJson (VList articles')) /\
        Forall2 (fun a a' => exists d d' structured inline,
                     a = VDict d /\ a' = VDict d' /\
                     Dict.get da d' = Some (VList (structured ++ inline)) /\
                     Forall (is_structured_record d) structured /\
                     inline_records_of d inline)
          articles articles').
Proof.
  assert (Hindep : forall d v v' st,
             enrich_article (VDict (Dict.set da v d)) st
             = enrich_article (VDict (Dict.set da v' d)) st).
  { intros d v v' st. unfold enrich_article. now rewrite !dict_set_set. }
  split; [exact Hindep|]. split.
  - intros d v st Hv v'. rewrite <- (dict_set_get_id da v d Hv) at 1. apply Hindep.
  - intros fuel st st' articles' H.
    apply export_articles_spec in H as (articles & st1 & Hget & Hall & Hfile).
    exists articles, st1. split; [assumption|]. split; [assumption|].
    eapply Forall2_impl; [exact Hall|].
    intros a a' (d & s & s' & -> & He).
    apply enrich_article_spec in He as (structured & inline & -> & Hs & Hi).
    exists d, (Dict.set da (VList (structured ++ inline)) d), structured, inline.
    repeat split; auto. apply dict_get_set_eq.
Qed.


(** ** Completion of a run on well-formed answers *)

Definition has_key (k : string) (d : dict) : bool :=
  match Dict.get k d with
  | Some _ => true
  | None => false
  end.

(** An [attachments] entry the structured path can read. *)
Definition wf_attachment (v : pyval) : bool :=
  match v with
  | VDict e => has_key "file_name" e && has_key "content_url" e
  | _ => false
  end.

(** An article record [export_articles] can enrich: an object with an
    [id]; [attachments] missing, empty or a list of readable entries;
    [body] missing, empty or a string. *)
Definition wf_article (v : pyval) : bool :=
  match v with
  | VDict d =>
      has_key "id" d
      && match Dict.get "attachments" d with
         | None => true
         | Some (VList l) => forallb wf_attachment l
         | Some x => negb (py_truthy x)
         end
      && match Dict.get "body" d with
         | None => true
         | Some (VStr _) => true
         | Some x => negb (py_truthy x)
         end
  | _ => false
  end.

Definition item_ok (key : string) : pyval -> bool :=
  if String.eqb key "articles" then wf_article else fun _ => true.

Definition wf_listing (key : string) (d : dict) : bool :=
  match Dict.get key d with
  | None => true
  | Some (VList l) => forallb (item_ok key) l
  | Some _ => false
  end.

(** A JSON body the fetcher can read: an object whose listings are lists
    (of well-formed articles, for [articles]), or a false value. *)
Definition wf_body (v : pyval) : bool :=
  match v with
  | VDict d => wf_listing "categories" d && wf_listing "sections" d && wf_listing "articles" d
  | _ => negb (py_truthy v)
  end.

(** An answer the run gets through: a 429 whose [Retry-After] is absent or
    a delay [time.sleep] takes; a failure; or a success whose body is not
    JSON or decodes, without an error of the decoder, to a readable body. *)
Definition wf_response (r : response) : bool :=
  match r with
  | ConnError => true
  | Reply rp =>
      if status_code rp =? 429
      then match retry_after_seconds (retry_after rp) with
           | Some n => (0 <=? n) && (n <=? sleep_max) && (n <=? Z.pos (sleep_limit w))
           | None => false
           end
      else if http_error (status_code rp) then true
      else match json_body rp with
           | NotJson => true
           | Json v => wf_body v
           | DecoderRaises _ => false
           end
  end.

(** An answer that hands out no cursor. *)
Definition quiet (r : response) : bool := negb (py_truthy (cursor_of r)).

(** No run of consecutive 429 answers is longer than the interpreter's
    stack has room for: from any request on, one of the next
    [recursion_limit w + 1] answers is not a 429. *)
Definition retries_fit : Prop :=
  forall n, exists k, (k <= recursion_limit w)%nat /\ is_429 (responses w (n + k)) = false.

Definition listing_keys : list string := ["categories"; "sections"; "articles"].

Section WellFormedWorld.

Variable N : nat.
Hypothesis wf_world : forall n, wf_response (responses w n) = true.
Hypothesis quiet_after : forall n, (N <= n)%nat -> quiet (responses w n) = true.
Hypothesis bounded_retries : retries_fit.

Lemma wf_answer (r : response) :
  wf_response r = true -> is_429 r = false ->
  decoder_error r = None /\ wf_body (answer r) = true.
Proof.
  destruct r as [|rp]; [split; reflexivity|]. unfold wf_response, is_429, answer, decoder_error.
  intros H H429. rewrite H429 in *. simpl.
  destruct (http_error (status_code rp)); [split; reflexivity|].
  destruct (json_body rp); [split; [reflexivity|assumption]|split; reflexivity|discriminate].
Qed.

Lemma wf_throttled (r : response) :
  wf_response r = true -> is_429 r = true -> exists n, throttled r n.
Proof.
  destruct r as [|rp]; simpl; [discriminate|]. intros H H429. rewrite H429 in H.
  destruct (retry_after_seconds (retry_after rp)) as [n|] eqn:E; [|discriminate].
  apply andb_prop in H as [H H2]. apply andb_prop in H as [H0 H1].
  exists n. unfold throttled. simpl.
  repeat split; [assumption| |lia|lia|lia]. now exists rp.
Qed.

Lemma answer_dict (r : response) (d : dict) :
  is_429 r = false -> answer r = VDict d -> page_body r = Some d.
Proof.
  destruct r as [|rp]; [discriminate|]. unfold is_429, answer, page_body. intros ->.
  destruct (http_error (status_code rp)); [discriminate|].
  destruct (json_body rp) as [v| |]; simpl; try discriminate. now intros ->.
Qed.

Lemma wf_body_truthy (v : pyval) :
  wf_body v = true -> py_truthy v = true -> exists d, v = VDict d /\ d <> [].
Proof.
  destruct v; simpl; intros H Ht; try (rewrite Ht in H; discriminate); try discriminate.
  exists d. split; [reflexivity|]. now destruct d.
Qed.

Lemma wf_body_listed (key : string) (d : dict) :
  wf_body (VDict d) = true -> In key listing_keys ->
  exists items, listed key d items /\ forallb (item_ok key) items = true.
Proof.
  simpl. intros H Hk.
  apply andb_prop in H as [H Ha]. apply andb_prop in H as [Hc Hs].
  assert (Hl : wf_listing key d = true)
    by (destruct Hk as [<- | [<- | [<- | []]]]; assumption).
  unfold wf_listing in Hl. unfold listed.
  destruct (Dict.get key d) as [[]|]; try discriminate; eauto.
Qed.

(** A call that is [depth] retries deep, behind [depth] 429 answers, comes
    back: the run of 429 answers it is in ends within the stack's room. *)
Lemma make_request_at_total (url : pyval) :
  forall (fuel depth : nat) (st : state),
    (recursion_limit w < fuel + depth)%nat ->
    (depth <= length (requests st))%nat ->
    (forall j, (j < depth)%nat ->
               is_429 (responses w (length (requests st) - depth + j)) = true) ->
    exists k st',
      is_429 (responses w (length (requests st) + k)) = false /\
      make_request_at fuel depth url st
      = Done (answer (responses w (length (requests st) + k))) st' /\
      length (requests st') = (length (requests st) + k + 1)%nat.
Proof.
  assert (Hroom : forall depth c, (depth <= c)%nat ->
            (forall j, (j < depth)%nat -> is_429 (responses w (c - depth + j)%nat) = true) ->
            (depth <= recursion_limit w)%nat /\
            (is_429 (responses w c) = true -> (depth < recursion_limit w)%nat)).
  { intros depth c Hc Hrun. destruct (bounded_retries (c - depth)%nat) as (k & Hk & Hfree).
    split.
    - destruct (Nat.lt_ge_cases k depth) as [Hlt|Hge]; [|lia].
      rewrite (Hrun k Hlt) in Hfree. discriminate.
    - intros E. destruct (Nat.lt_ge_cases k depth) as [Hlt|Hge].
      + rewrite (Hrun k Hlt) in Hfree. discriminate.
      + destruct (Nat.eq_dec k depth) as [->|Hne]; [|lia].
        replace (c - depth + depth)%nat with c in Hfree by lia. congruence. }
  induction fuel as [|fuel IH]; intros depth st Hfuel Hdepth Hrun.
  - destruct (Hroom depth _ Hdepth Hrun) as [Hle _]. simpl in Hfuel. lia.
  - destruct (Hroom depth _ Hdepth Hrun) as [_ Hlt].
    destruct (is_429 (responses w (length (requests st)))) eqn:E.
    + destruct (wf_throttled _ (wf_world _) E) as [n Hn].
      rewrite (make_request_throttled _ _ _ _ _ _ eq_refl Hn) by auto.
      set (st1 := log_sleep (inject_Z n) (log_request url st)).
      assert (Hlen : length (requests st1) = S (length (requests st)))
        by apply length_log_request.
      destruct (IH (S depth) st1) as (k & st' & Hk & Hm & Hl).
      * lia.
      * lia.
      * intros j Hj. rewrite Hlen.
        replace (S (length (requests st)) - S depth + j)%nat
          with (length (requests st) - depth + j)%nat by lia.
        destruct (Nat.eq_dec j depth) as [->|Hne].
        -- replace (length (requests st) - depth + depth)%nat
             with (length (requests st)) by lia. exact E.
        -- apply Hrun. lia.
      * rewrite Hlen in *. exists (S k), st'.
        replace (length (requests st) + S k)%nat with (S (length (requests st)) + k)%nat by lia.
        repeat split; [assumption|assumption|lia].
    + destruct (wf_answer _ (wf_world _) E) as [Hdec _].
      exists 0%nat, (log_request url st). rewrite Nat.add_0_r.
      repeat split; [assumption|now apply make_request_at_final|].
      rewrite length_log_request. lia.
Qed.

Lemma make_request_total (url : pyval) (fuel : nat) (st : state) :
  (recursion_limit w < fuel)%nat ->
  exists k st',
    is_429 (responses w (length (requests st) + k)) = false /\
    make_request fuel url st = Done (answer (responses w (length (requests st) + k))) st' /\
    length (requests st') = (length (requests st) + k + 1)%nat.
Proof.
  intros Hfuel. apply make_request_at_total; [lia|lia|intros j Hj; lia].
Qed.

Lemma get_all_loop_total (fuel : nat) (key : string) :
  In key listing_keys -> (recursion_limit w < fuel)%nat ->
  forall (n : nat) (url : pyval) (acc : list pyval) (st : state),
    (1 <= n)%nat -> (N < n + length (requests st))%nat ->
    forallb (item_ok key) acc = true ->
    exists items st',
      get_all_loop fuel n key url acc st = Done items st' /\
      forallb (item_ok key) items = true.
Proof.
  intros Hkey Hfuel. induction n as [|n IH]; intros url acc st H1 HN Hacc; [lia|].
  destruct (py_truthy url) eqn:Hu; [|exists acc, st; now rewrite loop_falsy].
  destruct (make_request_total url fuel st) as (k & st1 & H429 & Hm & Hlen); [lia|].
  set (r := responses w (length (requests st) + k)) in *.
  destruct (wf_answer r (wf_world _) H429) as [_ Hwf].
  destruct (py_truthy (answer r)) eqn:Ht.
  - destruct (wf_body_truthy _ Hwf Ht) as (d & Hd & Hne). rewrite Hd in *.
    destruct (wf_body_listed key d Hwf Hkey) as (items & Hl & Hitems).
    rewrite (loop_page fuel n key url d items acc st st1 Hu Hm Hne (listed_iter _ _ _ Hl)).
    set (cursor := default VNone (Dict.get "next_page" d)).
    assert (Hacc' : forallb (item_ok key) (acc ++ items) = true)
      by (rewrite forallb_app, Hacc, Hitems; reflexivity).
    destruct (py_truthy cursor) eqn:Hc.
    + assert (length (requests st) + k < N)%nat as Hlt.
      { destruct (Nat.lt_ge_cases (length (requests st) + k) N) as [|Hge]; [assumption|].
        apply quiet_after in Hge. fold r in Hge. unfold quiet, cursor_of in Hge.
        rewrite (answer_dict r d H429 Hd) in Hge. fold cursor in Hge.
        rewrite Hc in Hge. discriminate. }
      apply IH; simpl; [lia|lia|assumption].
    + rewrite loop_falsy by assumption. eauto.
  - exists acc, st1. split; [|assumption]. now apply (loop_stop _ _ _ _ (answer r)).
Qed.

Lemma get_all_paginated_total (fuel : nat) (key : string) (st : state) :
  In key listing_keys -> (N < fuel)%nat -> (recursion_limit w < fuel)%nat ->
  exists items st',
    get_all_paginated fuel key key st = Done items st' /\
    forallb (item_ok key) items = true.
Proof.
  intros Hkey HN Hfuel. unfold get_all_paginated.
  apply get_all_loop_total; [assumption|assumption|lia|lia|reflexivity].
Qed.

End WellFormedWorld.


Lemma has_key_get (k : string) (d : dict) :
  has_key k d = true -> exists v, Dict.get k d = Some v.
Proof. unfold has_key. destruct (Dict.get k d); [eauto|discriminate]. Qed.

Lemma attachments_loop_total (d0 : dict) (l : list pyval) :
  has_key "id" d0 = true ->
  forallb wf_attachment l = true ->
  forall (recs : list pyval) (st : state),
    exists recs' st',
      attachments_loop (Dict.set da (VList recs) d0) l st
      = Done (Dict.set da (VList recs') d0) st'.
Proof.
  intros Hid. induction l as [|x l IH]; intros Hl recs st.
  - exists recs, st. reflexivity.
  - simpl in Hl. apply andb_prop in Hl as [Hx Hl].
    destruct x as [| | | | | |e]; try discriminate. simpl in Hx.
    apply andb_prop in Hx as [Hfn Hurl].
    apply has_key_get in Hid as [id Hid'].
    apply has_key_get in Hfn as [fn Hfn]. apply has_key_get in Hurl as [url Hurl].
    simpl attachments_loop. unfold bind, subscript.
    rewrite dict_get_set_ne by apply da_not_id. rewrite Hid'. unfold ret.
    simpl py_getitem. unfold subscript. rewrite Hfn, Hurl. unfold ret.
    rewrite download_attachment_spec.
    fold (structured_filename id fn).
    destruct (download_ok _ _).
    + rewrite attachment_path_truthy by apply structured_filename_nonempty.
      rewrite extend_records_set. apply IH. assumption.
    + cbn [py_truthy]. apply IH. assumption.
Qed.

Lemma enrich_article_total (a : pyval) (st : state) :
  wf_article a = true -> exists a' st', enrich_article a st = Done a' st'.
Proof.
  destruct a as [| | | | | |d]; try discriminate. simpl wf_article. intros H.
  apply andb_prop in H as [H Hbody]. apply andb_prop in H as [Hid Hatts].
  unfold enrich_article.
  assert (exists recs s1,
             (if py_truthy (default VNone (Dict.get "attachments" (Dict.set da (VList []) d)))
              then let! atts := subscript (Dict.set da (VList []) d) "attachments" in
                   match py_iter atts with
                   | Some l => attachments_loop (Dict.set da (VList []) d) l
                   | None => raise TypeError
                   end
              else ret (Dict.set da (VList []) d)) st
             = Done (Dict.set da (VList recs) d) s1) as (recs & s1 & H1).
  { rewrite dict_get_set_ne by apply da_not_attachments.
    destruct (Dict.get "attachments" d) as [atts|] eqn:Ea; [|exists [], st; reflexivity].
    destruct (py_truthy (default VNone (Some atts))) eqn:Ht; [|exists [], st; reflexivity].
    unfold bind, subscript. rewrite dict_get_set_ne by apply da_not_attachments.
    rewrite Ea. unfold ret.
    destruct atts; simpl in Ht, Hatts; try (rewrite Ht in Hatts; discriminate);
      try discriminate.
    simpl py_iter. now apply attachments_loop_total. }
  unfold bind at 1. rewrite H1.
  unfold bind at 1.
  rewrite dict_get_set_ne by apply da_not_body.
  destruct (Dict.get "body" d) as [body|] eqn:Eb; [|eexists _, s1; reflexivity].
  destruct (py_truthy (default VNone (Some body))) eqn:Ht; [|eexists _, s1; reflexivity].
  apply has_key_get in Hid as [id Hid'].
  unfold bind, subscript.
  rewrite !dict_get_set_ne by (apply da_not_body || apply da_not_id).
  rewrite Eb, Hid'. unfold ret.
  destruct body; simpl in Ht, Hbody; try (rewrite Ht in Hbody; discriminate);
    try discriminate.
  destruct (extract_loop_spec s id (length (requests s1))
              (re_findall attachment_pattern s) 0 [] s1) as (s' & He & _); [lia|].
  simpl extract_attachments_from_html. rewrite He. eauto.
Qed.

Lemma enrich_articles_total (articles : list pyval) :
  forallb wf_article articles = true ->
  forall st, exists articles' st',
    enrich_articles articles st = Done articles' st' /\ length articles' = length articles.
Proof.
  induction articles as [|a articles IH]; intros H st.
  - exists [], st. split; reflexivity.
  - simpl in H. apply andb_prop in H as [Ha H].
    destruct (enrich_article_total a st Ha) as (a' & s1 & He).
    destruct (IH H s1) as (rest' & s2 & Hr & Hlen).
    exists (a' :: rest'), s2. simpl. unfold bind. rewrite He, Hr. simpl.
    split; [reflexivity|]. now rewrite Hlen.
Qed.

(** C6 (as amended): request failures (network errors, HTTP error
    statuses other than 429, bodies that are not JSON), failed downloads and
    a failed theme export never escalate.  When every answer of the API is
    well formed ([wf_response]: a [Retry-After] that is absent or a delay
    [time.sleep] takes; bodies on which the decoder raises nothing of its
    own and that are false values or objects with lists under the listing
    keys; article records that carry [id] and readable [attachments] and
    [body]), when no run of consecutive 429 answers is longer than the
    interpreter's stack has room for, when cursors stop after finitely many
    requests, and when the four JSON files can be written, [export_all]
    runs to completion and writes [manifest.json] with the three totals. *)
Theorem export_all_completes (N fuel : nat) (st : state) :
  (forall n, wf_response (responses w n) = true) ->
  (forall n, (N <= n)%nat -> quiet (responses w n) = true) ->
  retries_fit ->
  (forall name,
      In name ["categories.json"; "sections.json"; "articles.json"; "manifest.json"] ->
      accepts w (json_path name) = true) ->
  (N < fuel)%nat ->
  (recursion_limit w < fuel)%nat ->
  exists st' categories sections articles,
    export_all fuel st = Done tt st' /\
    files st' !! json_path "manifest.json"
    = Some (FJson (manifest_of categories sections articles)).
Proof.
  intros Hwf Hquiet Hfit Hfs HN Hfuel.
  assert (Hw : forall name f s,
             In name ["categories.json"; "sections.json"; "articles.json"; "manifest.json"] ->
             write_file (json_path name) f s = Done tt (put_file (json_path name) f s)).
  { intros name f s Hin. unfold write_file. now rewrite (Hfs name Hin). }
  unfold export_all, export_categories, export_sections, export_articles.
  destruct (get_all_paginated_total N Hwf Hquiet Hfit fuel "categories" st)
    as (categories & s1 & Hc & _); [simpl; tauto|assumption|assumption|].
  unfold bind at 1. unfold bind at 1. rewrite Hc.
  unfold bind at 1. rewrite Hw by (simpl; tauto). unfold ret at 1.
  set (s2 := put_file _ _ s1).
  destruct (get_all_paginated_total N Hwf Hquiet Hfit fuel "sections" s2)
    as (sections & s3 & Hs & _); [simpl; tauto|assumption|assumption|].
  unfold bind at 1. unfold bind at 1. rewrite Hs.
  unfold bind at 1. rewrite Hw by (simpl; tauto). unfold ret at 1.
  set (s4 := put_file _ _ s3).
  destruct (get_all_paginated_total N Hwf Hquiet Hfit fuel "articles" s4)
    as (fetched & s5 & Ha & Hok); [simpl; tauto|assumption|assumption|].
  destruct (enrich_articles_total fetched Hok s5) as (articles & s6 & He & _).
  unfold bind at 1. unfold bind at 1. rewrite Ha.
  unfold bind at 1. rewrite He.
  unfold bind at 1. rewrite Hw by (simpl; tauto). unfold ret at 1.
  set (s7 := put_file _ _ s6).
  assert (exists s8, export_themes fuel s7 = Done tt s8) as (s8 & Ht).
  { unfold export_themes, try_except, bind.
    destruct (make_request_total Hwf Hfit (VStr (hc_base_url +:+ "/themes")) fuel s7)
      as (k & s & _ & Hm & _); [lia|].
    rewrite Hm. destruct (py_truthy _); [|eexists; reflexivity].
    unfold write_file. destruct (accepts w _); eexists; reflexivity. }
  unfold bind at 1. rewrite Ht.
  rewrite Hw by (simpl; tauto).
  eexists _, categories, sections, articles. split; [reflexivity|].
  simpl. apply lookup_insert_eq.
Qed.


(** ** Further properties of the request layer *)

Lemma make_request_at_effects (url : pyval) (fuel depth : nat) (st st' : state) :
  final_state (make_request_at fuel depth url st) = Some st' ->
  exists k,
    requests st' = requests st ++ repeat url (S k) /\
    length (sleeps st') = (length (sleeps st) + k)%nat /\
    files st' = files st.
Proof.
  revert depth st st'. induction fuel as [|fuel IH]; intros depth st st' H; [discriminate|].
  simpl in H. unfold session_get in H.
  assert (Hstop : Some (log_request url st) = Some st' ->
             exists k, requests st' = requests st ++ repeat url (S k) /\
                       length (sleeps st') = (length (sleeps st) + k)%nat /\
                       files st' = files st).
  { intros [= <-]. exists 0%nat. simpl. rewrite Nat.add_0_r. auto. }
  destruct (responses w (length (requests st))) as [|rp]; [exact (Hstop H)|].
  destruct (status_code rp =? 429).
  - destruct (retry_after_seconds (retry_after rp)) as [n|]; [|exact (Hstop H)].
    destruct (recursion_limit w <=? depth)%nat; [exact (Hstop H)|].
    unfold bind, time_sleep in H.
    repeat match type of H with
           | context [if negb ?b then _ else _] => destruct (negb b); [exact (Hstop H)|]
           end.
    apply IH in H as (k & Hq & Hs & Hf). exists (S k). rewrite Hq, Hs, Hf. simpl.
    rewrite <- app_assoc, length_app. simpl. repeat split. lia.
  - destruct (http_error (status_code rp)); [exact (Hstop H)|].
    destruct (json_body rp); exact (Hstop H).
Qed.

Lemma make_request_effects (url : pyval) (fuel : nat) (st st' : state) :
  final_state (make_request fuel url st) = Some st' ->
  exists k,
    requests st' = requests st ++ repeat url (S k) /\
    length (sleeps st') = (length (sleeps st) + k)%nat /\
    files st' = files st.
Proof. apply make_request_at_effects. Qed.

(** Whatever [make_request] ends with, a result or an exception, all it
    has done is ask for [url], once per attempt, and sleep once per retry:
    no other target, no file. *)
Theorem make_request_footprint (url : pyval) (fuel : nat) (st st' : state) :
  final_state (make_request fuel url st) = Some st' ->
  exists k,
    requests st' = requests st ++ repeat url (S k) /\
    length (sleeps st') = (length (sleeps st) + k)%nat /\
    files st' = files st.
Proof. apply make_request_effects. Qed.

(** The pagination loop never writes a file and never takes a request
    back. *)
Lemma loop_footprint (fuel : nat) (key : string) :
  forall (n : nat) (url : pyval) (acc : list pyval) (st st' : state),
    final_state (get_all_loop fuel n key url acc st) = Some st' ->
    files st' = files st /\ exists more, requests st' = requests st ++ more.
Proof.
  induction n as [|n IH]; intros url acc st st' H; simpl in H;
    destruct (py_truthy url); try discriminate;
    try (injection H as <-; split; [reflexivity|exists []; now rewrite app_nil_r]).
  unfold bind in H.
  destruct (make_request fuel url st) as [data s1|e s1|] eqn:Hm; try discriminate;
    (assert (final_state (make_request fuel url st) = Some s1) as Hfp by now rewrite Hm);
    apply make_request_effects in Hfp as (k & Hq & _ & Hf).
  - assert (Hhere : files s1 = files st /\ exists more, requests s1 = requests st ++ more)
      by (split; [assumption|eauto]).
    destruct (negb (py_truthy data)); [now injection H as <-|].
    destruct data; try (now injection H as <-).
    destruct (py_iter _) as [items|]; [|now injection H as <-].
    rewrite pace_ok in H. apply IH in H as [Hf' [more Hmore]]. simpl in Hf', Hmore. split.
    + now rewrite Hf'.
    + exists (repeat url (S k) ++ more). now rewrite Hmore, Hq, <- app_assoc.
  - injection H as <-. split; [assumption|eauto].
Qed.

(** [get_all_paginated], however it ends, has written no file, and its
    first request went to the endpoint's URL. *)
Theorem fetcher_footprint (fuel : nat) (endpoint key : string) (st st' : state) :
  final_state (get_all_paginated fuel endpoint key st) = Some st' ->
  files st' = files st /\
  exists rest,
    requests st' = requests st ++ VStr (hc_base_url +:+ "/" +:+ endpoint) :: rest.
Proof.
  unfold get_all_paginated. intros H. split.
  - now apply loop_footprint in H.
  - apply loop_first_request in H. now rewrite first_url_truthy in H.
Qed.

(** A negative [Retry-After] is an integer for [int] but not a delay for
    [time.sleep]: the sleep raises, [OverflowError] when the delay does not
    fit the 64-bit count of nanoseconds and [ValueError] otherwise, and the
    exception escapes after one request and without a retry. *)
Theorem negative_retry_after_raises (fuel : nat) (url : pyval) (st : state)
    (rp : reply) (n : Z) :
  responses w (length (requests st)) = Reply rp ->
  status_code rp = 429 ->
  retry_after_seconds (retry_after rp) = Some n ->
  n < 0 ->
  (0 < recursion_limit w)%nat ->
  make_request (S fuel) url st
  = Raise (if n <? - sleep_max then OverflowError else ValueError) (log_request url st).
Proof.
  intros Hr H429 Hn Hneg Hroom. unfold make_request. simpl. unfold session_get.
  rewrite Hr, H429, Hn. simpl.
  destruct (Nat.leb_spec (recursion_limit w) 0) as [Hle|_]; [lia|].
  unfold bind, time_sleep.
  assert (Qle_bool (inject_Z n) (inject_Z sleep_max) = true) as ->.
  { apply Qle_bool_iff. rewrite <- Zle_Qle. unfold sleep_max. lia. }
  rewrite andb_true_r.
  assert (Qle_bool 0 (inject_Z n) = false) as Hsign.
  { apply not_true_is_false. intros Hle. apply Qle_bool_iff in Hle.
    change 0%Q with (inject_Z 0) in Hle. rewrite <- Zle_Qle in Hle. lia. }
  destruct (Z.ltb_spec n (- sleep_max)) as [Hlow|Hin].
  - assert (Qle_bool (inject_Z (- sleep_max)) (inject_Z n) = false) as ->; [|reflexivity].
    apply not_true_is_false. intros Hle. apply Qle_bool_iff in Hle.
    rewrite <- Zle_Qle in Hle. lia.
  - assert (Qle_bool (inject_Z (- sleep_max)) (inject_Z n) = true) as ->.
    { apply Qle_bool_iff. now rewrite <- Zle_Qle. }
    simpl negb. cbv iota. now rewrite Hsign.
Qed.

(** *** Runs of pages *)

(** The target the loop holds after the pages [pages], starting from [url]. *)
Definition target_after (url : pyval) (pages : list response) : pyval :=
  List.last (map cursor_of pages) url.

Lemma loop_through_pages (fuel : nat) (key : string) (pages : list response) :
  forall (url : pyval) (acc : list pyval) (n : nat) (st : state),
    py_truthy url = true ->
    Forall (continuing key) pages ->
    serves (length (requests st)) pages ->
    exists st1,
      get_all_loop (S fuel) (length pages + n) key url acc st
      = get_all_loop (S fuel) n key (target_after url pages)
          (acc ++ concat (map (items_of key) pages)) st1 /\
      py_truthy (target_after url pages) = true /\
      requests st1 ++ [target_after url pages] = requests st ++ url :: map cursor_of pages /\
      sleeps st1 = sleeps st ++ repeat (1 # 10) (length pages) /\
      files st1 = files st.
Proof.
  induction pages as [|p pages IH]; intros url acc n st Hu Hpages Hs.
  - exists st. simpl. rewrite !app_nil_r. auto.
  - destruct Hs as [Hr Hs]. apply Forall_cons_iff in Hpages as [[Hwf Hc] Hrest].
    destruct (well_formed_listed _ _ Hwf) as (d & Hd & Hl & Hcur).
    destruct (page_body_answer _ _ Hd) as (H429 & Hdec & Ha).
    pose proof (make_request_final fuel url st p Hr H429 Hdec) as Hm. rewrite Ha in Hm.
    assert (Hne : d <> []).
    { intros ->. rewrite Hcur in Hc. discriminate. }
    simpl length. simpl Nat.add.
    rewrite (loop_page _ _ _ _ _ _ _ _ _ Hu Hm Hne (listed_iter _ _ _ Hl)).
    rewrite <- Hcur.
    set (st2 := log_sleep (1 # 10) (log_request url st)).
    destruct (IH (cursor_of p) (acc ++ items_of key p) n st2 Hc Hrest)
      as (st1 & He & Ht & Hq & Hsl & Hf).
    { subst st2. simpl. rewrite length_app. simpl. now rewrite Nat.add_1_r. }
    assert (Htarget : target_after url (p :: pages) = target_after (cursor_of p) pages).
    { unfold target_after. simpl. destruct (map cursor_of pages) as [|c cs] eqn:E;
        [reflexivity|]. clear. revert c. induction cs as [|c' cs IHcs]; intros c;
        [reflexivity|]. simpl in *. apply IHcs. }
    exists st1. rewrite Htarget, He, Hq, Hsl, Hf. subst st2. simpl.
    repeat split; auto.
    + now rewrite <- app_assoc.
    + now rewrite <- app_assoc.
    + now rewrite <- app_assoc.
Qed.

(** A page the loop has read: a successful answer whose JSON object is not
    empty. *)
Definition read_page (r : response) : bool :=
  match page_body r with
  | Some (_ :: _) => true
  | _ => false
  end.

(** The pacing delay is slept once after each page that was read, also the
    last one, and not after a request that failed: when the listing ends
    with [last], the run has slept [0.1] once per page of [pages], and once
    more exactly when [last] is itself a page. *)
Theorem pacing_after_each_page (fuel : nat) (endpoint key : string)
    (pages : list response) (last : response) (st : state) :
  Forall (continuing key) pages ->
  terminal key last ->
  serves (length (requests st)) (pages ++ [last]) ->
  (length pages < fuel)%nat ->
  exists items st',
    get_all_paginated fuel endpoint key st = Done items st' /\
    sleeps st'
    = sleeps st ++ repeat (1 # 10) (length pages + (if read_page last then 1 else 0)).
Proof.
  intros Hpages Hlast Hs Hfuel. destruct fuel as [|fuel]; [lia|].
  apply serves_app in Hs as [Hs [Hr _]].
  destruct (loop_through_pages fuel key pages _ [] (S fuel - length pages) st
              (first_url_truthy endpoint) Hpages Hs) as (st1 & He & Ht & Hq & Hsl & _).
  assert (Hlen : length (requests st1) = (length (requests st) + length pages)%nat).
  { apply (f_equal (@length pyval)) in Hq. rewrite !length_app in Hq. simpl in Hq.
    rewrite length_map in Hq. lia. }
  rewrite <- Hlen in Hr.
  set (target := target_after (VStr (hc_base_url +:+ "/" +:+ endpoint)) pages) in *.
  assert (Hrun : get_all_paginated (S fuel) endpoint key st
                 = get_all_loop (S fuel) (S (fuel - length pages)) key target
                     ([] ++ concat (map (items_of key) pages)) st1).
  { unfold get_all_paginated.
    replace (S fuel) with (length pages + (S fuel - length pages))%nat at 2 by lia.
    rewrite He. f_equal. lia. }
  rewrite Hrun. clear Hrun He.
  destruct Hlast as [Hbad | [Hwf Hc]].
  - destruct (answer_failed _ Hbad) as (H429 & Hdec & Ha).
    pose proof (make_request_final fuel target st1 last Hr H429 Hdec) as Hm. rewrite Ha in Hm.
    rewrite (loop_stop _ _ _ _ _ _ _ _ Ht Hm eq_refl).
    eexists _, _. split; [reflexivity|]. simpl. rewrite Hsl.
    unfold read_page. rewrite (failed_no_page _ Hbad). now rewrite Nat.add_0_r.
  - destruct (well_formed_listed _ _ Hwf) as (d & Hd & Hl & Hcur).
    destruct (page_body_answer _ _ Hd) as (H429 & Hdec & Ha).
    pose proof (make_request_final fuel target st1 last Hr H429 Hdec) as Hm. rewrite Ha in Hm.
    unfold read_page. rewrite Hd. destruct d as [|kv d].
    + rewrite (loop_stop _ _ _ _ _ _ _ _ Ht Hm eq_refl).
      eexists _, _. split; [reflexivity|]. simpl. rewrite Hsl. now rewrite Nat.add_0_r.
    + rewrite (loop_page _ _ _ _ _ _ _ _ _ Ht Hm ltac:(discriminate) (listed_iter _ _ _ Hl)).
      rewrite <- Hcur, loop_falsy by assumption.
      eexists _, _. split; [reflexivity|]. simpl. rewrite Hsl, <- app_assoc. f_equal.
      rewrite Nat.add_1_r. symmetry. apply repeat_cons.
Qed.

(** How a successful answer can be unreadable for the loop: a JSON value
    that is true but not an object has no [get] ([AttributeError]); an
    object whose [key] entry cannot be iterated (null, a number, a boolean)
    cannot extend the list ([TypeError]). *)
Definition unreadable (key : string) (r : response) : option exn :=
  match r with
  | ConnError => None
  | Reply rp =>
      if (status_code rp =? 429) || http_error (status_code rp) then None
      else match json_body rp with
           | Json (VDict []) => None
           | Json (VDict d) =>
               match py_iter (default (VList []) (Dict.get key d)) with
               | None => Some TypeError
               | Some _ => None
               end
           | Json v => if py_truthy v then Some AttributeError else None
           | _ => None
           end
  end.

(** A success answer with a false JSON value ([null], [{}], [[]], [0],
    the empty string). *)
Definition false_body (r : response) : Prop :=
  is_429 r = false /\ decoder_error r = None /\ py_truthy (answer r) = false.

Lemma loop_raises (fuel n : nat) (key : string) (url data : pyval) (e : exn)
    (acc : list pyval) (st st1 : state) :
  py_truthy url = true ->
  make_request fuel url st = Done data st1 ->
  py_truthy data = true ->
  match data with
  | VDict d => py_iter (default (VList []) (Dict.get key d)) = None /\ e = TypeError
  | _ => e = AttributeError
  end ->
  get_all_loop fuel (S n) key url acc st = Raise e st1.
Proof.
  intros Hu Hm Ht He. simpl. rewrite Hu. unfold bind at 1. rewrite Hm, Ht. simpl negb.
  destruct data; try (now subst e). destruct He as [-> ->]. reflexivity.
Qed.

(** An unreadable page does not truncate the listing, it loses it: after
    any number of good pages, [get_all_paginated] raises and returns
    nothing of what it had collected. *)
Theorem unreadable_page_raises (fuel : nat) (endpoint key : string)
    (pages : list response) (bad : response) (e : exn) (st : state) :
  Forall (continuing key) pages ->
  unreadable key bad = Some e ->
  serves (length (requests st)) (pages ++ [bad]) ->
  (length pages < fuel)%nat ->
  exists st',
    get_all_paginated fuel endpoint key st = Raise e st' /\
    requests st'
    = requests st ++ VStr (hc_base_url +:+ "/" +:+ endpoint) :: map cursor_of pages.
Proof.
  intros Hpages Hbad Hs Hfuel. destruct fuel as [|fuel]; [lia|].
  apply serves_app in Hs as [Hs [Hr _]].
  destruct (loop_through_pages fuel key pages _ [] (S fuel - length pages) st
              (first_url_truthy endpoint) Hpages Hs) as (st1 & He & Ht & Hq & _ & _).
  assert (Hlen : length (requests st1) = (length (requests st) + length pages)%nat).
  { apply (f_equal (@length pyval)) in Hq. rewrite !length_app in Hq. simpl in Hq.
    rewrite length_map in Hq. lia. }
  rewrite <- Hlen in Hr.
  set (target := target_after (VStr (hc_base_url +:+ "/" +:+ endpoint)) pages) in *.
  exists (log_request target st1). split; [|simpl; exact Hq].
  unfold get_all_paginated.
  replace (S fuel) with (length pages + (S fuel - length pages))%nat at 2 by lia.
  rewrite He. replace (S fuel - length pages)%nat with (S (fuel - length pages)) by lia.
  destruct bad as [|rp]; [discriminate|]. unfold unreadable in Hbad.
  destruct (status_code rp =? 429) eqn:E429; [discriminate|].
  destruct (http_error (status_code rp)) eqn:Eerr; [discriminate|]. simpl in Hbad.
  destruct (json_body rp) as [v| |] eqn:Ebody; try discriminate.
  assert (Hdec : decoder_error (Reply rp) = None).
  { simpl. now rewrite E429, Eerr, Ebody. }
  pose proof (make_request_final fuel target st1 (Reply rp) Hr E429 Hdec) as Hm.
  simpl answer in Hm. rewrite Eerr, Ebody in Hm.
  apply (loop_raises _ _ _ _ v _ _ _ _ Ht Hm).
  - destruct v as [| | | | | |d]; try (now destruct (py_truthy _)).
    now destruct d.
  - destruct v as [| | | | | |d]; try (destruct (py_truthy _); congruence).
    destruct d as [|kv d]; [discriminate|].
    destruct (py_iter _); [discriminate|]. split; congruence.
Qed.

(** A false JSON value ends the listing quietly, like a failure: the items
    of the pages before it are returned. *)
Theorem false_body_ends_pagination (fuel : nat) (endpoint key : string)
    (pages : list response) (empty : response) (st : state) :
  Forall (continuing key) pages ->
  false_body empty ->
  serves (length (requests st)) (pages ++ [empty]) ->
  (length pages < fuel)%nat ->
  exists st',
    get_all_paginated fuel endpoint key st = Done (concat (map (items_of key) pages)) st' /\
    requests st'
    = requests st ++ VStr (hc_base_url +:+ "/" +:+ endpoint) :: map cursor_of pages /\
    sleeps st' = sleeps st ++ repeat (1 # 10) (length pages).
Proof.
  intros Hpages (H429 & Hdec & Ha) Hs Hfuel. destruct fuel as [|fuel]; [lia|].
  apply serves_app in Hs as [Hs [Hr _]].
  destruct (loop_through_pages fuel key pages _ [] (S fuel - length pages) st
              (first_url_truthy endpoint) Hpages Hs) as (st1 & He & Ht & Hq & Hsl & _).
  assert (Hlen : length (requests st1) = (length (requests st) + length pages)%nat).
  { apply (f_equal (@length pyval)) in Hq. rewrite !length_app in Hq. simpl in Hq.
    rewrite length_map in Hq. lia. }
  rewrite <- Hlen in Hr.
  set (target := target_after (VStr (hc_base_url +:+ "/" +:+ endpoint)) pages) in *.
  pose proof (make_request_final fuel target st1 empty Hr H429 Hdec) as Hm.
  exists (log_request target st1). unfold get_all_paginated.
  replace (S fuel) with (length pages + (S fuel - length pages))%nat at 2 by lia.
  rewrite He. replace (S fuel - length pages)%nat with (S (fuel - length pages)) by lia.
  rewrite (loop_stop _ _ _ _ _ _ _ _ Ht Hm Ha).
  split; [reflexivity|]. split; [simpl; exact Hq|exact Hsl].
Qed.


(** ** Further properties of downloads and of the theme stage *)



Definition themes_url : pyval := VStr (hc_base_url +:+ "/themes").

(** [export_themes] never lets an exception out: what [make_request]
    raises (the [ValueError] of a [Retry-After] that is not an integer, for
    one) and a [themes.json] that cannot be opened both end the stage
    normally, with nothing written. *)
Theorem export_themes_never_raises :
  (forall fuel st e st', export_themes fuel st <> Raise e st') /\
  (forall fuel st e st1,
      make_request fuel themes_url st = Raise e st1 ->
      export_themes fuel st = Done tt st1) /\
  (forall fuel st data st1,
      make_request fuel themes_url st = Done data st1 ->
      accepts w (json_path "themes.json") = false ->
      export_themes fuel st = Done tt st1).
Proof.
  split; [|split].
  - intros fuel st e st'. unfold export_themes, try_except, bind.
    fold themes_url. destruct (make_request fuel themes_url st) as [data s1|e1 s1|];
      try discriminate.
    destruct (py_truthy data); [|discriminate].
    unfold write_file. destruct (accepts w _); discriminate.
  - intros fuel st e st1 H. unfold export_themes, try_except, bind. fold themes_url.
    now rewrite H.
  - intros fuel st data st1 H Hacc. unfold export_themes, try_except, bind.
    fold themes_url. rewrite H. destruct (py_truthy data); [|reflexivity].
    unfold write_file. now rewrite Hacc.
Qed.

(** ** Further properties of article enrichment *)

(** An article with nothing under [attachments] and nothing under [body]
    (missing, null, empty) costs no request: it gets an empty
    [downloaded_attachments] and the state is untouched.  It needs no [id]. *)
Theorem article_without_sources (d : dict) (st : state) :
  py_truthy (default VNone (Dict.get "attachments" d)) = false ->
  py_truthy (default VNone (Dict.get "body" d)) = false ->
  enrich_article (VDict d) st = Done (VDict (Dict.set da (VList [])  d)) st.
Proof.
  intros Ha Hb. unfold enrich_article.
  rewrite dict_get_set_ne by apply da_not_attachments. rewrite Ha.
  unfold bind at 1. unfold ret at 1.
  rewrite dict_get_set_ne by apply da_not_body. rewrite Hb. reflexivity.
Qed.

Lemma truthy_iter_nonempty (v : pyval) (l : list pyval) :
  py_truthy v = true -> py_iter v = Some l -> l <> [].
Proof.
  destruct v; simpl; try discriminate.
  - destruct s; [discriminate|]. now intros _ [= <-].
  - destruct l0; [discriminate|]. now intros _ [= <-].
  - destruct d; [discriminate|]. now intros _ [= <-].
Qed.

(** An article without [id] that has something to download -- entries
    under [attachments], or a body -- raises [KeyError('id')] before any
    request is issued. *)
Theorem missing_id_raises_before_any_download (d : dict) (st : state) :
  Dict.get "id" d = None ->
  let atts := default VNone (Dict.get "attachments" d) in
  (py_truthy atts = true /\ (exists l, py_iter atts = Some l)) \/
  (py_truthy atts = false /\ py_truthy (default VNone (Dict.get "body" d)) = true) ->
  enrich_article (VDict d) st = Raise (KeyError "id") st.
Proof.
  intros Hid atts H. unfold enrich_article.
  rewrite dict_get_set_ne by apply da_not_attachments. fold atts.
  destruct H as [[Ht [l Hl]] | [Hf Hb]].
  - rewrite Ht. unfold bind at 1. unfold bind at 1. unfold subscript at 1.
    rewrite dict_get_set_ne by apply da_not_attachments.
    subst atts. destruct (Dict.get "attachments" d) as [a|]; [|discriminate].
    simpl in Ht, Hl. unfold ret at 1. rewrite Hl.
    pose proof (truthy_iter_nonempty a l Ht Hl) as Hne.
    destruct l as [|x l]; [congruence|]. simpl attachments_loop.
    unfold bind at 1. unfold subscript.
    rewrite dict_get_set_ne by apply da_not_id. now rewrite Hid.
  - rewrite Hf. unfold bind at 1. unfold ret at 1.
    rewrite dict_get_set_ne by apply da_not_body. rewrite Hb.
    unfold bind at 1. unfold bind at 1. unfold subscript at 1.
    rewrite dict_get_set_ne by apply da_not_body.
    destruct (Dict.get "body" d) as [b|]; [|discriminate].
    unfold ret at 1. unfold bind at 1. unfold subscript.
    rewrite dict_get_set_ne by apply da_not_id. now rewrite Hid.
Qed.


(** ** What the attachment pattern matches *)

Lemma length_append (a b : string) :
  String.length (a +:+ b) = (String.length a + String.length b)%nat.
Proof. induction a as [|c a IH]; simpl; [reflexivity|]. now rewrite IH. Qed.

Lemma consumed_append (p t : string) : consumed (p +:+ t) t = p.
Proof.
  unfold consumed. rewrite length_append.
  replace (String.length p + String.length t - String.length t)%nat
    with (String.length p) by lia.
  induction p as [|c p IH]; simpl; [now destruct t|]. now rewrite IH.
Qed.

(** The longest prefix of [s] inside a character class, and what follows. *)
Fixpoint take_class (class : ascii -> bool) (s : string) : string :=
  match s with
  | String a s' => if class a then String a (take_class class s') else EmptyString
  | EmptyString => EmptyString
  end.

Fixpoint skip_class (class : ascii -> bool) (s : string) : string :=
  match s with
  | String a s' => if class a then skip_class class s' else s
  | EmptyString => EmptyString
  end.

Lemma take_skip (class : ascii -> bool) (s : string) :
  s = take_class class s +:+ skip_class class s.
Proof.
  induction s as [|a s IH]; simpl; [reflexivity|].
  destruct (class a); [rewrite IH at 1|]; reflexivity.
Qed.

Lemma take_digits (s : string) : all_digits (take_class is_digit s) = true.
Proof.
  induction s as [|a s IH]; simpl; [reflexivity|].
  destruct (is_digit a) eqn:E; simpl; [now rewrite E|reflexivity].
Qed.

Lemma skip_digits_head (s : string) :
  match skip_class is_digit s with
  | String c _ => is_digit c = false
  | EmptyString => True
  end.
Proof.
  induction s as [|a s IH]; simpl; [exact I|].
  destruct (is_digit a) eqn:E; [exact IH|exact E].
Qed.

(** When what follows cannot fail, a greedy repetition takes all it can. *)
Lemma star_total {R} (class : ascii -> bool) (s : string) (k : string -> option R) :
  (forall t, k t <> None) -> star class s k = k (skip_class class s).
Proof.
  intros Hk. induction s as [|a s IH]; simpl; [reflexivity|].
  destruct (class a); [|reflexivity]. rewrite IH.
  destruct (k (skip_class class s)) eqn:E; [reflexivity|]. now apply Hk in E.
Qed.

Lemma drop_prefix_append (p s s' : string) : drop_prefix p s = Some s' -> s = p +:+ s'.
Proof.
  revert s. induction p as [|a p IH]; intros s; simpl.
  - now intros [= ->].
  - destruct s as [|b s]; [discriminate|].
    destruct (Ascii.eqb a b) eqn:E; [|discriminate].
    apply Ascii.eqb_eq in E. subst b. intros H. apply IH in H. now rewrite H.
Qed.

(** A match of the attachment pattern is the fixed prefix followed by a
    run of digits that is not empty and cannot be extended. *)
Lemma attachment_match_shape (s g t : string) :
  match_here attachment_pattern s = Some (g, t) ->
  s = attachment_base +:+ g +:+ t /\
  g <> "" /\
  all_digits g = true /\
  match t with
  | String c _ => is_digit c = false
  | EmptyString => True
  end.
Proof.
  unfold match_here, attachment_pattern. cbn [rmatch].
  destruct (drop_prefix attachment_base s) as [s'|] eqn:Hp; [|discriminate].
  apply drop_prefix_append in Hp. cbn [rmatch].
  destruct s' as [|a s'']; [discriminate|].
  destruct (is_digit a) eqn:Ha; [|discriminate].
  rewrite star_total by discriminate. cbn [default].
  intros [= <- <-].
  assert (Hc : consumed (String a s'') (skip_class is_digit s'')
               = String a (take_class is_digit s'')).
  { rewrite (take_skip is_digit s'') at 1.
    apply (consumed_append (String a (take_class is_digit s''))). }
  rewrite Hc. split; [|split; [discriminate|split]].
  - rewrite Hp. rewrite (take_skip is_digit s'') at 1. reflexivity.
  - simpl. now rewrite Ha, take_digits.
  - apply skip_digits_head.
Qed.

Lemma findall_from_matches (r : regex) (s : string) :
  forall (skip : nat) (g : string),
    In g (findall_from r s skip) -> exists s' t, match_here r s' = Some (g, t).
Proof.
  induction s as [|a s IH]; intros skip g; simpl; [tauto|].
  destruct skip as [|n]; [|apply IH].
  destruct (match_here r (String a s)) as [[g' t]|] eqn:E; [|apply IH].
  intros [<- | Hin]; [eauto|]. now apply IH in Hin.
Qed.

Lemma kept_at_most {A} (l : list (option A)) : (length (omap id l) <= length l)%nat.
Proof.
  induction l as [|[x|] l IH]; [reflexivity| |];
    change (omap id (?o :: l)) with (match o with Some y => y :: omap id l | None => omap id l end);
    simpl; lia.
Qed.

(** The inline resolver asks only for attachment URLs: each of its
    requests goes to the fixed prefix followed by a non-empty run of digits
    that stands, with that prefix, in the body.  It returns at most one
    record per request. *)
Theorem inline_downloads_are_attachment_urls (html_content : string) (article_id : pyval)
    (st : state) :
  exists ids recs st',
    extract_attachments_from_html (VStr html_content) article_id st = Done recs st' /\
    requests st' = requests st ++ map (fun m => VStr (attachment_base +:+ m)) ids /\
    (length recs <= length ids)%nat /\
    Forall (fun m =>
              m <> "" /\ all_digits m = true /\
              exists before after,
                html_content = before +:+ attachment_base +:+ m +:+ after) ids.
Proof.
  destruct (extract_loop_spec html_content article_id (length (requests st))
              (re_findall attachment_pattern html_content) 0 [] st)
    as (st' & He & Hq); [lia|].
  exists (re_findall attachment_pattern html_content). eexists _, st'.
  split; [exact He|]. split; [exact Hq|]. split.
  - simpl app. etransitivity; [apply kept_at_most|]. now rewrite length_imap.
  - apply Forall_forall. intros m Hin. apply list_elem_of_In in Hin.
    unfold re_findall in Hin.
    assert (Hsuffix : forall (s : string) (skip : nat),
               In m (findall_from attachment_pattern s skip) ->
               exists s0 t, match_here attachment_pattern s0 = Some (m, t) /\
                            exists before, s = before +:+ s0).
    { induction s as [|a s IH]; intros skip; simpl; [tauto|].
      assert (Hlater : forall n, In m (findall_from attachment_pattern s n) ->
                 exists s0 t, match_here attachment_pattern s0 = Some (m, t) /\
                              exists before, String a s = before +:+ s0).
      { intros n Hn. apply IH in Hn as (s0 & t & Hm & before & ->).
        exists s0, t. split; [assumption|]. now exists (String a before). }
      destruct skip as [|n]; [|apply Hlater].
      destruct (match_here attachment_pattern (String a s)) as [[g' t]|] eqn:E;
        [|apply Hlater].
      intros [<- | Hn]; [|now apply Hlater in Hn].
      exists (String a s), t. split; [assumption|]. now exists "". }
    apply Hsuffix in Hin as (s0 & t & Hm & before & ->).
    apply attachment_match_shape in Hm as (-> & Hne & Hd & _).
    repeat split; try assumption. now exists before, t.
Qed.


(** ** What enrichment asks for *)

Lemma after_download_sleeps (url : pyval) (filename : string) (st : state) :
  sleeps (after_download url filename st) = sleeps st.
Proof.
  unfold after_download. destruct (responses w _) as [|rp]; [reflexivity|].
  now destruct (download_ok _ _).
Qed.

Lemma extract_loop_effects (html : string) (article_id : pyval) (ms : list string) :
  forall (i : nat) (acc recs : list pyval) (st st' : state),
    extract_loop html article_id i ms acc st = Done recs st' ->
    sleeps st' = sleeps st.
Proof.
  induction ms as [|m ms IH]; intros i acc recs st st' H.
  - now injection H as _ <-.
  - simpl in H. unfold bind in H. rewrite download_attachment_spec in H.
    pose proof (after_download_sleeps (VStr (attachment_base +:+ m))
                  (inline_filename article_id i (original_filename_of html m)) st) as Hs.
    destruct (py_truthy _); apply IH in H; congruence.
Qed.

(** The target of the download of one [attachments] entry. *)
Definition entry_url (x : pyval) : option pyval :=
  match x with
  | VDict e => Dict.get "content_url" e
  | _ => None
  end.

Lemma attachments_loop_effects (d0 : dict) :
  forall (l : list pyval) (recs : list pyval) (st st' : state) (d' : dict),
    attachments_loop (Dict.set da (VList recs) d0) l st = Done d' st' ->
    sleeps st' = sleeps st /\
    requests st' = requests st ++ omap entry_url l /\
    length (omap entry_url l) = length l.
Proof.
  induction l as [|x l IH]; intros recs st st' d' H.
  - injection H as _ <-. simpl. rewrite app_nil_r. repeat split.
  - simpl in H.
    apply bind_done in H as (id & s1 & Hid & H). apply subscript_done in Hid as [Hid ->].
    apply bind_done in H as (fn & s1 & Hfn & H).
    apply py_getitem_done in Hfn as (e & -> & Hfn & ->).
    apply bind_done in H as (url & s1 & Hurl & H).
    apply py_getitem_done in Hurl as (e' & [= <-] & Hurl & ->).
    apply bind_done in H as (filepath & s1 & Hdl & H).
    rewrite download_attachment_spec in Hdl. injection Hdl as <- <-.
    fold (structured_filename id fn) in H.
    pose proof (after_download_sleeps url (structured_filename id fn) st) as Hs.
    assert (Hhead : omap entry_url (VDict e :: l) = url :: omap entry_url l).
    { change (omap entry_url (VDict e :: l))
        with (match Dict.get "content_url" e with
              | Some y => y :: omap entry_url l
              | None => omap entry_url l
              end). now rewrite Hurl. }
    rewrite Hhead.
    destruct (download_ok _ _).
    + rewrite attachment_path_truthy in H by apply structured_filename_nonempty.
      apply bind_done in H as (url' & s1 & Hurl' & H).
      apply py_getitem_done in Hurl' as (e' & [= <-] & Hurl' & ->).
      rewrite extend_records_set in H.
      apply IH in H as (Hs' & Hq & Hlen).
      rewrite Hq, requests_after_download, <- app_assoc. simpl. rewrite Hlen.
      repeat split. congruence.
    + cbn [py_truthy] in H.
      apply IH in H as (Hs' & Hq & Hlen).
      rewrite Hq, requests_after_download, <- app_assoc. simpl. rewrite Hlen.
      repeat split. congruence.
Qed.

(** What [enrich_article] asks for: the [content_url] of each entry under
    [attachments], then the matches in [body]. *)
Definition structured_targets (d : dict) : list pyval :=
  let atts := default VNone (Dict.get "attachments" d) in
  if py_truthy atts then omap entry_url (default [] (py_iter atts)) else [].

Definition inline_targets (d : dict) : list pyval :=
  match Dict.get "body" d with
  | Some (VStr html) =>
      map (fun m => VStr (attachment_base +:+ m)) (re_findall attachment_pattern html)
  | _ => []
  end.

Lemma enrich_article_effects (d : dict) (st st' : state) (a' : pyval) :
  enrich_article (VDict d) st = Done a' st' ->
  requests st' = requests st ++ structured_targets d ++ inline_targets d /\
  (forall l, py_truthy (default VNone (Dict.get "attachments" d)) = true ->
             py_iter (default VNone (Dict.get "attachments" d)) = Some l ->
             length (structured_targets d) = length l) /\
  sleeps st' = sleeps st.
Proof.
  unfold enrich_article. intros H.
  apply bind_done in H as (d1 & s1 & H1 & H).
  apply bind_done in H as (d2 & s2 & H2 & H). injection H as _ <-.
  assert (Hfirst : requests s1 = requests st ++ structured_targets d /\
                   (forall l, py_truthy (default VNone (Dict.get "attachments" d)) = true ->
                              py_iter (default VNone (Dict.get "attachments" d)) = Some l ->
                              length (structured_targets d) = length l) /\
                   sleeps s1 = sleeps st /\
                   exists recs, d1 = Dict.set da (VList recs) d).
  { rewrite dict_get_set_ne in H1 by apply da_not_attachments.
    unfold structured_targets.
    destruct (py_truthy (default VNone (Dict.get "attachments" d))) eqn:Ht.
    - apply bind_done in H1 as (atts & s0 & Ha & H1). apply subscript_done in Ha as [Ha ->].
      rewrite dict_get_set_ne in Ha by apply da_not_attachments. rewrite Ha. simpl default.
      destruct (py_iter atts) as [l|] eqn:Hit; [|discriminate].
      pose proof H1 as H1'.
      apply attachments_loop_effects in H1 as (Hs & Hq & Hlen).
      apply attachments_loop_spec in H1' as (new & -> & _);
        [|intros e He; now exists atts, l].
      simpl default.
      split; [exact Hq|]. split; [intros l' _ [= <-]; exact Hlen|].
      split; [exact Hs|]. eauto.
    - injection H1 as <- <-. rewrite app_nil_r.
      split; [reflexivity|]. split; [discriminate|]. split; [reflexivity|].
      now exists []. }
  destruct Hfirst as (Hq1 & Hlen & Hs1 & recs & ->). clear H1.
  rewrite dict_get_set_ne in H2 by apply da_not_body.
  assert (Hsecond : requests s2 = requests s1 ++ inline_targets d /\
                    sleeps s2 = sleeps s1).
  { unfold inline_targets.
    destruct (py_truthy (default VNone (Dict.get "body" d))) eqn:Ht.
    - apply bind_done in H2 as (body & s0 & Hb & H2). apply subscript_done in Hb as [Hb ->].
      rewrite dict_get_set_ne in Hb by apply da_not_body. rewrite Hb.
      apply bind_done in H2 as (id & s0 & Hid & H2). apply subscript_done in Hid as [Hid ->].
      apply bind_done in H2 as (found & s0 & He & H2). injection H2 as _ <-.
      destruct body as [| | | |html| |]; try discriminate.
      simpl in He. pose proof He as He'.
      apply extract_loop_effects in He as Hs.
      destruct (extract_loop_spec html id (length (requests s1))
                  (re_findall attachment_pattern html) 0 [] s1) as (s' & He'' & Hq); [lia|].
      rewrite He'' in He'. injection He' as _ <-. auto.
    - injection H2 as _ <-.
      assert (match Dict.get "body" d with
              | Some (VStr html) =>
                  map (fun m => VStr (attachment_base +:+ m))
                    (re_findall attachment_pattern html)
              | _ => []
              end = []) as ->.
      { destruct (Dict.get "body" d) as [[| | | |html| |]|]; try reflexivity.
        destruct html; [reflexivity|discriminate]. }
      rewrite app_nil_r. split; reflexivity. }
  destruct Hsecond as (Hq2 & Hs2).
  rewrite Hq2, Hq1, <- app_assoc.
  split; [reflexivity|]. split; [exact Hlen|]. congruence.
Qed.

(** Enriching an article issues one download per entry under
    [attachments], in order, then one per match in [body], and it never
    sleeps: downloads are neither paced nor retried. *)
Theorem enrichment_downloads (d : dict) (st st' : state) (a' : pyval) :
  enrich_article (VDict d) st = Done a' st' ->
  requests st' = requests st ++ structured_targets d ++ inline_targets d /\
  (forall l, py_truthy (default VNone (Dict.get "attachments" d)) = true ->
             py_iter (default VNone (Dict.get "attachments" d)) = Some l ->
             length (structured_targets d) = length l) /\
  sleeps st' = sleeps st.
Proof. apply enrich_article_effects. Qed.


(** ** The stages and the manifest *)

Lemma get_all_paginated_files (fuel : nat) (endpoint key : string)
    (st st' : state) (items : list pyval) :
  get_all_paginated fuel endpoint key st = Done items st' -> files st' = files st.
Proof.
  intros H. unfold get_all_paginated in H.
  assert (final_state (get_all_loop fuel fuel key (VStr (hc_base_url +:+ "/" +:+ endpoint))
                         [] st) = Some st') as Hf by now rewrite H.
  now apply loop_footprint in Hf.
Qed.

(** A listing stage changes one file and nothing else: [categories.json]
    (resp. [sections.json]) holds exactly the list the stage returns, which
    is what [get_all_paginated] gave, truncated or not.  When the file
    cannot be opened the stage raises [OSError] after the listing was
    fetched. *)
Theorem listing_stages_write_one_file :
  (forall fuel st items st',
      export_categories fuel st = Done items st' ->
      (exists st1, get_all_paginated fuel "categories" "categories" st = Done items st1) /\
      files st' = <[json_path "categories.json" := FJson (VList items)]> (files st)) /\
  (forall fuel st items st',
      export_sections fuel st = Done items st' ->
      (exists st1, get_all_paginated fuel "sections" "sections" st = Done items st1) /\
      files st' = <[json_path "sections.json" := FJson (VList items)]> (files st)) /\
  (forall fuel st items st1,
      get_all_paginated fuel "categories" "categories" st = Done items st1 ->
      accepts w (json_path "categories.json") = false ->
      export_categories fuel st = Raise OSError st1).
Proof.
  split; [|split].
  - intros fuel st items st' H. unfold export_categories in H.
    apply bind_done in H as (l & s1 & Hget & H).
    apply bind_done in H as (u & s2 & Hw & H). injection H as <- <-.
    apply write_file_done in Hw as [_ ->].
    split; [eauto|]. simpl. now rewrite (get_all_paginated_files _ _ _ _ _ _ Hget).
  - intros fuel st items st' H. unfold export_sections in H.
    apply bind_done in H as (l & s1 & Hget & H).
    apply bind_done in H as (u & s2 & Hw & H). injection H as <- <-.
    apply write_file_done in Hw as [_ ->].
    split; [eauto|]. simpl. now rewrite (get_all_paginated_files _ _ _ _ _ _ Hget).
  - intros fuel st items st1 Hget Hacc. unfold export_categories, bind.
    rewrite Hget. unfold write_file. now rewrite Hacc.
Qed.

Lemma enrich_articles_length (articles : list pyval) :
  forall (st st' : state) (articles' : list pyval),
    enrich_articles articles st = Done articles' st' ->
    length articles' = length articles.
Proof.
  induction articles as [|a articles IH]; intros st st' articles' H; simpl in H.
  - now injection H as <- <-.
  - apply bind_done in H as (a' & s1 & Ha & H).
    apply bind_done in H as (rest' & s2 & Hrest & H). injection H as <- <-.
    apply IH in Hrest. simpl. now rewrite Hrest.
Qed.

(** The manifest of a completed run counts what the API listed: its three
    totals are the numbers of items the listings of categories, sections
    and articles returned, each listing starting where the stage before it
    left the run.  Enrichment keeps one record per article, so the total of
    articles is the number of articles fetched, whatever became of their
    downloads. *)
Theorem manifest_counts_the_listings (fuel : nat) (st st' : state) :
  export_all fuel st = Done tt st' ->
  exists categories sections fetched s1 s3 s5,
    get_all_paginated fuel "categories" "categories" st = Done categories s1 /\
    get_all_paginated fuel "sections" "sections"
      (put_file (json_path "categories.json") (FJson (VList categories)) s1)
    = Done sections s3 /\
    get_all_paginated fuel "articles" "articles"
      (put_file (json_path "sections.json") (FJson (VList sections)) s3)
    = Done fetched s5 /\
    files st' !! json_path "manifest.json"
    = Some (FJson (manifest_of categories sections fetched)).
Proof.
  unfold export_all. intros H.
  apply bind_done in H as (categories & s2 & Hc & H).
  apply bind_done in H as (sections & s4 & Hs & H).
  apply bind_done in H as (articles & s7 & Ha & H).
  apply bind_done in H as (u & s8 & Ht & H).
  apply write_file_done in H as [_ ->].
  unfold export_categories in Hc.
  apply bind_done in Hc as (l & s1 & Hget & Hc).
  apply bind_done in Hc as (u1 & s2' & Hw & Hc). injection Hc as -> ->.
  apply write_file_done in Hw as [_ ->].
  unfold export_sections in Hs.
  apply bind_done in Hs as (l & s3 & Hget2 & Hs).
  apply bind_done in Hs as (u2 & s4' & Hw & Hs). injection Hs as -> ->.
  apply write_file_done in Hw as [_ ->].
  unfold export_articles in Ha.
  apply bind_done in Ha as (fetched & s5 & Hget3 & Ha).
  apply bind_done in Ha as (arts' & s6 & Hen & Ha).
  apply bind_done in Ha as (u3 & s7' & Hw & Ha). injection Ha as -> ->.
  apply enrich_articles_length in Hen.
  exists categories, sections, fetched, s1, s3, s5.
  split; [exact Hget|]. split; [exact Hget2|]. split; [exact Hget3|].
  simpl. rewrite lookup_insert_eq. unfold manifest_of, py_len. now rewrite Hen.
Qed.


(** ** What the image pattern captures *)

Fixpoint all_in (class : ascii -> bool) (s : string) : bool :=
  match s with
  | EmptyString => true
  | String a s' => class a && all_in class s'
  end.

(** A successful greedy repetition took some prefix inside the class and
    handed the rest to what follows. *)
Lemma star_result {R} (class : ascii -> bool) (s : string) (k : string -> option R) (r : R) :
  star class s k = Some r ->
  exists p t, s = p +:+ t /\ all_in class p = true /\ k t = Some r.
Proof.
  induction s as [|a s IH]; simpl; intros H.
  - now exists "", "".
  - destruct (class a) eqn:Ea; [|now exists "", (String a s)].
    destruct (star class s k) as [r'|] eqn:Es.
    + injection H as ->. destruct (IH eq_refl) as (p & t & -> & Hp & Hk).
      exists (String a p), t. simpl. rewrite Ea, Hp. auto.
    + now exists "", (String a s).
Qed.

Fixpoint group_free (r : regex) : bool :=
  match r with
  | Group _ => false
  | Cat r1 r2 => group_free r1 && group_free r2
  | _ => true
  end.

(** A pattern without group leaves group 1 as it found it. *)
Lemma rmatch_group_free {R} (r : regex) :
  group_free r = true ->
  forall (s : string) (g : option string) (k : string -> option string -> option R) (res : R),
    rmatch r s g k = Some res -> exists t, k t g = Some res.
Proof.
  induction r as [p| |c|r IH|r1 IH1 r2 IH2]; simpl; intros Hg s g k res H.
  - destruct (drop_prefix p s); [eauto|discriminate].
  - destruct s as [|a s]; [discriminate|]. destruct (is_digit a); [|discriminate].
    apply star_result in H as (_ & t & _ & _ & H). eauto.
  - apply star_result in H as (_ & t & _ & _ & H). eauto.
  - discriminate.
  - apply andb_prop in Hg as [Hg1 Hg2].
    apply (IH1 Hg1) in H as [t H]. now apply (IH2 Hg2) in H.
Qed.

Lemma not_quote_all_in (p : string) :
  all_in (fun a => negb (Ascii.eqb a dquote)) p = true -> contains_char dquote p = false.
Proof.
  induction p as [|a p IH]; simpl; [reflexivity|]. intros H.
  apply andb_prop in H as [Ha Hp]. apply negb_true_iff in Ha. now rewrite Ha, IH.
Qed.

Lemma img_match_quote_free (url s g t : string) :
  match_here (img_pattern url) s = Some (g, t) -> contains_char dquote g = false.
Proof.
  unfold match_here, img_pattern. cbn [rmatch]. intros H.
  destruct (drop_prefix "<img" s) as [s1|]; [|discriminate].
  apply star_result in H as (_ & s2 & _ & _ & H).
  destruct (drop_prefix _ s2) as [s3|]; [|discriminate].
  apply star_result in H as (_ & s4 & _ & _ & H).
  destruct (drop_prefix _ s4) as [s5|]; [|discriminate].
  apply star_result in H as (p & s6 & -> & Hp & H).
  destruct (drop_prefix _ s6) as [s7|]; [|discriminate].
  rewrite consumed_append in H. injection H as <- _.
  now apply not_quote_all_in.
Qed.

Lemma digit_not_quote (a : ascii) : is_digit a = true -> Ascii.eqb a dquote = false.
Proof. destruct a as [[] [] [] [] [] [] [] []]; try reflexivity; discriminate. Qed.

Lemma re_search_step (r : regex) (s : string) :
  re_search r s
  = match match_here r s with
    | Some (g, _) => Some g
    | None => match s with
              | String _ s' => re_search r s'
              | EmptyString => None
              end
    end.
Proof. destruct s; reflexivity. Qed.

Lemma img_search_quote_free (url s alt : string) :
  re_search (img_pattern url) s = Some alt -> contains_char dquote alt = false.
Proof.
  induction s as [|a s IH]; intros H; rewrite re_search_step in H;
    destruct (match_here (img_pattern url) _) as [[g t]|] eqn:E;
    try (injection H as <-; now apply img_match_quote_free in E).
  - discriminate.
  - now apply IH.
Qed.

(** The name recovered for an attachment never contains a double quote:
    the image pattern captures the alt text up to the first one, and the
    fallback is [attachment_] followed by the digits of the id. *)
Theorem recovered_name_has_no_quote (html_content attachment_id : string) :
  all_digits attachment_id = true ->
  contains_char dquote (original_filename_of html_content attachment_id) = false.
Proof.
  intros Hid. unfold original_filename_of.
  destruct (re_search _ html_content) as [alt|] eqn:Hs.
  - now apply img_search_quote_free in Hs.
  - change ("attachment_" +:+ attachment_id)
      with (String "a" (String "t" (String "t" (String "a" (String "c" (String "h"
           (String "m" (String "e" (String "n" (String "t" (String "_"
           attachment_id))))))))))).
    assert (Hd : contains_char dquote attachment_id = false).
    { clear Hs. revert Hid. induction attachment_id as [|a s IH]; [reflexivity|].
      simpl. intros H. apply andb_prop in H as [Ha Hs'].
      rewrite (digit_not_quote a Ha). simpl. exact (IH Hs'). }
    simpl. exact Hd.
Qed.

End Exporter.


(** ** Concrete runs *)

Definition ok_json (v : pyval) : response :=
  Reply {| status_code := 200; retry_after := None; content := "bytes"; json_body := Json v |}.

Definition status_only (code : Z) (header : option string) : response :=
  Reply {| status_code := code; retry_after := header; content := ""; json_body := NotJson |}.

(** A world that answers with [rs] and then is unreachable; its interpreter
    has room for 981 nested retries and its sleep takes up to a day. *)
Definition scripted (rs : list response) : world :=
  {| responses := fun n => nth n rs ConnError;
     accepts := fun _ => true;
     now := "2024-01-01 00:00:00";
     recursion_limit := 981;
     sleep_limit := 86400 |}.

Definition categories_url : string :=
  "https://userology.zendesk.com/api/v2/help_center/categories".
Definition articles_url : string :=
  "https://userology.zendesk.com/api/v2/help_center/articles".
Definition page2_url : string :=
  "https://userology.zendesk.com/api/v2/help_center/categories?page=2".

Definition page1 : response :=
  ok_json (VDict [("categories", VList [VInt 1; VInt 2]); ("next_page", VStr page2_url)]).
Definition page2 : response :=
  ok_json (VDict [("categories", VList [VInt 3]); ("next_page", VNone)]).

(** A page whose whole body is a JSON array, and one whose listing is null. *)
Definition array_page : response := ok_json (VList [VInt 3]).
Definition null_listing : response :=
  ok_json (VDict [("categories", VNone); ("next_page", VNone)]).

Definition throttle_2s : response := status_only 429 (Some "2").
Definition throttle_default : response := status_only 429 None.

(** A fetch that meets no rate limiting. *)
Definition direct (r : response) : fetch := {| waited := []; settled := r |}.

(** The server hands out the same cursor on two pages: the loop requests it
    twice, with no 429 in between.  And a successful answer whose body is an
    array gives no items: the loop raises. *)
Lemma repeated_cursor_is_requested_again :
  (exists st',
      get_all_paginated (scripted [page1; page1; status_only 503 None]) "userology" 4
        "categories" "categories" initial
      = Done [VInt 1; VInt 2; VInt 1; VInt 2] st' /\
      requests st' = [VStr categories_url; VStr page2_url; VStr page2_url]) /\
  is_429 page1 = false /\
  (exists st',
      get_all_paginated (scripted [array_page]) "userology" 4
        "categories" "categories" initial
      = Raise AttributeError st' /\
      requests st' = [VStr categories_url]).
Proof.
  split; [|split; [reflexivity|]];
    (eexists; split; [vm_compute; reflexivity|reflexivity]).
Qed.

Lemma paginated_concatenation_witness :
  exists st',
    get_all_paginated (scripted [throttle_2s; page1; page2]) "userology" 3
      "categories" "categories" initial
    = Done [VInt 1; VInt 2; VInt 3] st' /\
    requests st' = [VStr categories_url; VStr categories_url; VStr page2_url].
Proof.
  destruct (paginated_concatenation (scripted [throttle_2s; page1; page2]) "userology" 3
              "categories" "categories"
              [{| waited := [(throttle_2s, 2)]; settled := page1 |}] (direct page2) initial)
    as (st' & new & He & Hq & Hnew & _).
  - constructor; [|constructor]. split; [|split; [|reflexivity]].
    + split; [|simpl; lia]. constructor; [|constructor].
      split; [reflexivity|]. split; [eexists; split; reflexivity|].
      unfold sleep_max. simpl. lia.
    + eexists. split; [reflexivity|]. right. eexists. reflexivity.
  - split; [constructor|simpl; lia].
  - right. split; [|reflexivity].
    eexists. split; [reflexivity|]. right. eexists. reflexivity.
  - simpl. auto.
  - simpl. lia.
  - repeat constructor.
  - exists st'. split; [exact He|]. rewrite Hq, Hnew. reflexivity.
Defined.




Definition http_date : string := "Wed, 21 Oct 2015 07:28:00 GMT".

Lemma retry_after_not_integer_raises_witness :
  exists st1,
    make_request (scripted [status_only 429 (Some http_date)]) 5 (VStr categories_url) initial
    = Raise ValueError st1 /\
    requests st1 = [VStr categories_url] /\
    sleeps st1 = [].
Proof.
  apply (retry_after_not_integer_raises (scripted [status_only 429 (Some http_date)]) 4
           (VStr categories_url) initial
           {| status_code := 429; retry_after := Some http_date; content := "";
              json_body := NotJson |} http_date);
    reflexivity.
Defined.

Lemma failure_returns_partial_result_witness :
  exists st',
    get_all_paginated (scripted [page1; status_only 503 None]) "userology" 3
      "categories" "categories" initial
    = Done [VInt 1; VInt 2] st' /\
    requests st' = [VStr categories_url; VStr page2_url].
Proof.
  apply (failure_returns_partial_result (scripted [page1; status_only 503 None]) "userology" 3
           "categories" "categories" [page1] (status_only 503 None) initial).
  - constructor; [|constructor]. split; [|reflexivity].
    eexists. split; [reflexivity|]. right. eexists. reflexivity.
  - simpl. split; [discriminate|]. left. reflexivity.
  - simpl. auto.
  - simpl. lia.
Defined.

(** A page without the item key, with a cursor. *)
Definition keyless_page : response := ok_json (VDict [("next_page", VStr page2_url)]).

Lemma page_appended_then_cursor_followed_witness :
  exists st1,
    requests st1 = [VStr categories_url] /\
    get_all_loop (scripted [keyless_page; page2]) 1 2 "categories" (VStr categories_url)
      [VInt 0] initial
    = get_all_loop (scripted [keyless_page; page2]) 1 1 "categories" (VStr page2_url)
        [VInt 0] st1.
Proof.
  destruct (page_appended_then_cursor_followed (scripted [keyless_page; page2]) 0 1
              "categories" (VStr categories_url) keyless_page
              [("next_page", VStr page2_url)] [] [VInt 0] initial)
    as (st1 & Hreq & Heq & _); try reflexivity.
  - left. split; reflexivity.
  - exists st1. split; [exact Hreq|exact Heq].
Defined.

(** A page whose cursor is there but empty, and a page whose listing is
    null although it has a cursor. *)
Definition empty_cursor_page : response :=
  ok_json (VDict [("categories", VList [VInt 1]); ("next_page", VStr "")]).
Definition null_listing_with_cursor : response :=
  ok_json (VDict [("categories", VNone); ("next_page", VStr page2_url)]).

(** The cursor of the first page is present, and pagination ends there: the
    second page is never asked for.  And on a successful page whose listing
    is null nothing is appended and the cursor is not followed: the loop
    raises. *)
Lemma present_cursor_can_end_pagination :
  page_body empty_cursor_page
  = Some [("categories", VList [VInt 1]); ("next_page", VStr "")] /\
  (exists st',
      get_all_paginated (scripted [empty_cursor_page; page2]) "userology" 3
        "categories" "categories" initial
      = Done [VInt 1] st' /\
      requests st' = [VStr categories_url]) /\
  (exists st',
      get_all_paginated (scripted [null_listing_with_cursor; page2]) "userology" 3
        "categories" "categories" initial
      = Raise TypeError st' /\
      requests st' = [VStr categories_url]).
Proof.
  split; [reflexivity|].
  split; (eexists; split; [vm_compute; reflexivity|reflexivity]).
Qed.

(** *** A status that is neither 2xx nor an error for [raise_for_status] *)

Definition multiple_choices : response :=
  Reply {| status_code := 300; retry_after := None; content := "";
           json_body := Json (VDict [("categories", VList [VInt 9]);
                                     ("next_page", VStr page2_url)]) |}.

(** The first page request is answered 300 (not 2xx, not 429) with a JSON
    body: [get_all_paginated] does not stop there with the items of the earlier
    pages (none); it collects the body's item and requests its cursor. *)
Lemma status_300_is_taken_as_a_page :
  responses (scripted [multiple_choices]) 0 = multiple_choices /\
  is_429 multiple_choices = false /\
  ((200 <=? 300) && (300 <? 300) = false) /\
  exists st',
    get_all_paginated (scripted [multiple_choices]) "userology" 3
      "categories" "categories" initial
    = Done [VInt 9] st' /\
    requests st' = [VStr categories_url; VStr page2_url].
Proof.
  split; [reflexivity|]. split; [reflexivity|]. split; [reflexivity|].
  eexists. split; [vm_compute; reflexivity|reflexivity].
Qed.

(** *** The resolver on concrete markup *)

Definition img (src alt : string) : string :=
  "<img src=" +:+ String dquote (src +:+ String dquote
    (" alt=" +:+ String dquote (alt +:+ String dquote ">"))).

Definition img_alt_first (src alt : string) : string :=
  "<img alt=" +:+ String dquote (alt +:+ String dquote
    (" src=" +:+ String dquote (src +:+ String dquote ">"))).

Definition att_url (attachment_id : string) : string := attachment_base +:+ attachment_id.

Example findall_keeps_repeats :
  re_findall attachment_pattern
    ("see " +:+ att_url "123" +:+ " and " +:+ att_url "45" +:+ "x " +:+ att_url "123")
  = ["123"; "45"; "123"].
Proof. reflexivity. Qed.

Example alt_text_is_the_name :
  original_filename_of (img (att_url "123") "pic.png") "123" = "pic.png".
Proof. reflexivity. Qed.

Example no_image_tag_uses_fallback :
  original_filename_of ("<a href=" +:+ att_url "123" +:+ ">file</a>") "123" = "attachment_123".
Proof. reflexivity. Qed.

(** The image pattern wants [alt] after [src] inside the tag. *)
Example alt_before_src_uses_fallback :
  original_filename_of (img_alt_first (att_url "123") "pic.png") "123" = "attachment_123".
Proof. reflexivity. Qed.

Definition twice : string := img (att_url "123") "pic.png" +:+ "<p/>" +:+ img (att_url "123") "pic.png".


(** *** Two structured attachments that declare the same name *)


Definition bytes_of (s : string) : response :=
  Reply {| status_code := 200; retry_after := None; content := s; json_body := NotJson |}.


Definition mixed_article : dict :=
  [("id", VInt 7);
   ("downloaded_attachments", VStr "upstream");
   ("title", VStr "How to");
   ("attachments",
    VList [VDict [("file_name", VStr "a.png"); ("content_url", VStr "https://cdn/one")]]);
   ("body", VStr twice)].

Definition mixed_world : world :=
  scripted [bytes_of "one"; bytes_of "img"; status_only 404 None].


(** *** Whole runs *)

Definition articles_page (articles : list pyval) : response :=
  ok_json (VDict [("articles", VList articles); ("next_page", VNone)]).

Definition full_run : world :=
  scripted [ok_json (VDict [("categories", VList [VInt 1])]);
            status_only 429 (Some "1");
            ok_json (VDict [("sections", VList [])]);
            articles_page [VDict mixed_article];
            bytes_of "one"; bytes_of "img"; status_only 404 None;
            status_only 404 None].

Definition articles_run : world :=
  scripted [articles_page [VDict mixed_article];
            bytes_of "one"; bytes_of "img"; status_only 404 None].

Lemma other_fields_preserved_witness :
  exists articles' st' d',
    export_articles articles_run "userology" 2 initial = Done articles' st' /\
    files st' !! json_path "userology" "articles.json" = Some (FJson (VList articles')) /\
    articles' = [VDict d'] /\
    Dict.remove da d' = Dict.remove da mixed_article.
Proof.
  eexists _, _.
  destruct (other_fields_preserved articles_run "userology" 2 initial _ _ eq_refl)
    as (articles & st1 & Hget & Hfile & Hall).
  vm_compute in Hget. injection Hget as <- _.
  apply Forall2_cons_inv_l in Hall as (a' & rest & (d & d' & Hd & -> & Hrem & _) & Hrest & E).
  apply Forall2_nil_inv_l in Hrest. subst rest. injection Hd as <-.
  exists d'. split; [reflexivity|]. split; [exact Hfile|]. split; [exact E|exact Hrem].
Defined.

Lemma upstream_downloaded_attachments_replaced_witness :
  enrich_article mixed_world "userology" (VDict mixed_article) initial
  = enrich_article mixed_world "userology"
      (VDict (Dict.set da (VList [VInt 1; VInt 2]) mixed_article)) initial /\
  exists a' st' d' r1 r2,
    enrich_article mixed_world "userology" (VDict mixed_article) initial = Done a' st' /\
    a' = VDict d' /\
    Dict.get da mixed_article = Some (VStr "upstream") /\
    Dict.get da d' = Some (VList [r1; r2]).
Proof.
  destruct (upstream_downloaded_attachments_replaced mixed_world "userology")
    as (_ & Hindep & _).
  split.
  - apply (Hindep mixed_article (VStr "upstream") initial). reflexivity.
  - do 5 eexists. split; [vm_compute; reflexivity|]. repeat split.
Defined.

(** *** Records that lack a field the code subscripts *)

Definition no_file_name : pyval :=
  VDict [("id", VInt 7);
         ("attachments", VList [VDict [("content_url", VStr "https://cdn/one")]])].
Definition no_content_url : pyval :=
  VDict [("id", VInt 7); ("attachments", VList [VDict [("file_name", VStr "a.png")]])].
Definition no_id : pyval := VDict [("body", VStr "<p>text</p>")].

Definition run_with (article : pyval) : world :=
  scripted [ok_json (VDict [("categories", VList [])]);
            ok_json (VDict [("sections", VList [])]);
            articles_page [article]].

(** An attachment entry without [file_name], one without [content_url] and
    an article without [id]: each run dies of a [KeyError] inside
    [export_articles], after [categories.json] and [sections.json], and
    never writes [manifest.json]. *)
Lemma missing_field_aborts_the_run :
  (exists st',
      export_all (run_with no_file_name) "userology" 3 initial
      = Raise (KeyError "file_name") st' /\
      files st' !! json_path "userology" "manifest.json" = None) /\
  (exists st',
      export_all (run_with no_content_url) "userology" 3 initial
      = Raise (KeyError "content_url") st' /\
      files st' !! json_path "userology" "manifest.json" = None) /\
  (exists st',
      export_all (run_with no_id) "userology" 3 initial = Raise (KeyError "id") st' /\
      files st' !! json_path "userology" "manifest.json" = None).
Proof.
  split; [|split]; eexists; (split; [vm_compute; reflexivity|vm_compute; reflexivity]).
Qed.

Lemma export_all_completes_witness :
  exists st' categories sections articles,
    export_all full_run "userology" 1000 initial = Done tt st' /\
    files st' !! json_path "userology" "manifest.json"
    = Some (FJson (manifest_of full_run "userology" categories sections articles)).
Proof.
  apply (export_all_completes full_run "userology" 3 1000 initial).
  - intros n. do 8 (destruct n as [|n]; [reflexivity|]). destruct n; reflexivity.
  - intros n Hn. do 8 (destruct n as [|n]; [first [reflexivity | exfalso; lia]|]).
    destruct n; reflexivity.
  - intros n. destruct (Nat.eq_dec n 1%nat) as [->|Hn].
    + exists 1%nat. split; [simpl; lia|reflexivity].
    + exists 0%nat. split; [simpl; lia|]. rewrite Nat.add_0_r.
      do 8 (destruct n as [|n]; [first [reflexivity | exfalso; lia]|]).
      destruct n; reflexivity.
  - intros name Hin. reflexivity.
  - lia.
  - simpl. lia.
Defined.

(** *** Runs for the further properties *)

Lemma make_request_footprint_witness :
  exists st' k,
    final_state (make_request (scripted [throttle_2s; throttle_default; page2]) 3
                   (VStr categories_url) initial) = Some st' /\
    requests st' = repeat (VStr categories_url) (S k) /\
    length (sleeps st') = k /\
    files st' = ∅.
Proof.
  eexists.
  destruct (make_request_footprint (scripted [throttle_2s; throttle_default; page2])
              (VStr categories_url) 3 initial _ eq_refl) as (k & Hq & Hs & Hf).
  exists k. split; [reflexivity|]. split; [exact Hq|]. split; [exact Hs|exact Hf].
Defined.

Lemma fetcher_footprint_witness :
  exists st' rest,
    final_state (get_all_paginated (scripted [page1; status_only 429 (Some http_date)])
                   "userology" 3 "categories" "categories" initial) = Some st' /\
    files st' = ∅ /\
    requests st' = VStr categories_url :: rest.
Proof.
  eexists.
  destruct (fetcher_footprint (scripted [page1; status_only 429 (Some http_date)])
              "userology" 3 "categories" "categories" initial _ eq_refl) as (Hf & rest & Hq).
  exists rest. split; [reflexivity|]. split; [exact Hf|exact Hq].
Defined.

Lemma negative_retry_after_raises_witness :
  make_request (scripted [status_only 429 (Some "-5")]) 2 (VStr categories_url) initial
  = Raise ValueError (log_request (VStr categories_url) initial) /\
  make_request (scripted [status_only 429 (Some "-99999999999999999999")]) 2
    (VStr categories_url) initial
  = Raise OverflowError (log_request (VStr categories_url) initial).
Proof.
  split.
  - apply (negative_retry_after_raises (scripted [status_only 429 (Some "-5")]) 1
             (VStr categories_url) initial
             {| status_code := 429; retry_after := Some "-5"; content := "";
                json_body := NotJson |} (-5));
      [reflexivity|reflexivity|reflexivity|lia|simpl; lia].
  - apply (negative_retry_after_raises
             (scripted [status_only 429 (Some "-99999999999999999999")]) 1
             (VStr categories_url) initial
             {| status_code := 429; retry_after := Some "-99999999999999999999";
                content := ""; json_body := NotJson |} (-99999999999999999999));
      [reflexivity|reflexivity|reflexivity|lia|simpl; lia].
Defined.

Lemma pacing_after_each_page_witness :
  exists items st',
    get_all_paginated (scripted [page1; page2]) "userology" 3 "categories" "categories"
      initial = Done items st' /\
    sleeps st' = [1 # 10; 1 # 10]%Q.
Proof.
  apply (pacing_after_each_page (scripted [page1; page2]) "userology" 3
           "categories" "categories" [page1] page2 initial).
  - constructor; [|constructor]. split; [|reflexivity].
    eexists. split; [reflexivity|]. right. eexists. reflexivity.
  - right. split; [|reflexivity].
    eexists. split; [reflexivity|]. right. eexists. reflexivity.
  - simpl. auto.
  - simpl. lia.
Defined.

Lemma unreadable_page_raises_witness :
  (exists st',
      get_all_paginated (scripted [page1; array_page]) "userology" 3
        "categories" "categories" initial = Raise AttributeError st' /\
      requests st' = [VStr categories_url; VStr page2_url]) /\
  (exists st',
      get_all_paginated (scripted [page1; null_listing]) "userology" 3
        "categories" "categories" initial = Raise TypeError st' /\
      requests st' = [VStr categories_url; VStr page2_url]).
Proof.
  split.
  - apply (unreadable_page_raises (scripted [page1; array_page]) "userology" 3
             "categories" "categories" [page1] array_page AttributeError initial).
    + constructor; [|constructor]. split; [|reflexivity].
      eexists. split; [reflexivity|]. right. eexists. reflexivity.
    + reflexivity.
    + simpl. auto.
    + simpl. lia.
  - apply (unreadable_page_raises (scripted [page1; null_listing]) "userology" 3
             "categories" "categories" [page1] null_listing TypeError initial).
    + constructor; [|constructor]. split; [|reflexivity].
      eexists. split; [reflexivity|]. right. eexists. reflexivity.
    + reflexivity.
    + simpl. auto.
    + simpl. lia.
Defined.

Lemma false_body_ends_pagination_witness :
  exists st',
    get_all_paginated (scripted [page1; ok_json (VList [])]) "userology" 3
      "categories" "categories" initial = Done [VInt 1; VInt 2] st' /\
    requests st' = [VStr categories_url; VStr page2_url] /\
    sleeps st' = [1 # 10]%Q.
Proof.
  apply (false_body_ends_pagination (scripted [page1; ok_json (VList [])]) "userology" 3
           "categories" "categories" [page1] (ok_json (VList [])) initial).
  - constructor; [|constructor]. split; [|reflexivity].
    eexists. split; [reflexivity|]. right. eexists. reflexivity.
  - repeat split; reflexivity.
  - simpl. auto.
  - simpl. lia.
Defined.

Definition bare_article : dict := [("title", VStr "Hello"); ("body", VNone)].

Lemma article_without_sources_witness :
  enrich_article (scripted []) "userology" (VDict bare_article) initial
  = Done (VDict [("title", VStr "Hello"); ("body", VNone);
                 ("downloaded_attachments", VList [])]) initial.
Proof.
  apply (article_without_sources (scripted []) "userology" bare_article initial);
    reflexivity.
Defined.

Lemma missing_id_raises_before_any_download_witness :
  enrich_article (scripted [bytes_of "one"]) "userology"
    (VDict [("body", VStr "<p>text</p>")]) initial
  = Raise (KeyError "id") initial.
Proof.
  apply (missing_id_raises_before_any_download (scripted [bytes_of "one"]) "userology"
           [("body", VStr "<p>text</p>")] initial); [reflexivity|].
  right. split; reflexivity.
Defined.

Lemma enrichment_downloads_witness :
  exists a' st',
    enrich_article mixed_world "userology" (VDict mixed_article) initial = Done a' st' /\
    requests st' = [VStr "https://cdn/one"; VStr (att_url "123"); VStr (att_url "123")] /\
    sleeps st' = [].
Proof.
  eexists _, _.
  destruct (enrichment_downloads mixed_world "userology" mixed_article initial _ _ eq_refl)
    as (Hq & _ & Hs).
  split; [reflexivity|]. split; [exact Hq|exact Hs].
Defined.

Lemma manifest_counts_the_listings_witness :
  exists st',
    export_all full_run "userology" 4 initial = Done tt st' /\
    files st' !! json_path "userology" "manifest.json"
    = Some (FJson (manifest_of full_run "userology" [VInt 1] [] [VDict mixed_article])).
Proof.
  destruct (export_all full_run "userology" 4 initial) as [[] st'|e st'|] eqn:E;
    [|vm_compute in E; discriminate|vm_compute in E; discriminate].
  exists st'.
  destruct (manifest_counts_the_listings full_run "userology" 4 initial st' E)
    as (categories & sections & fetched & s1 & s3 & s5 & Hc & Hs & Ha & Hm).
  vm_compute in Hc. injection Hc as <- <-.
  vm_compute in Hs. injection Hs as <- <-.
  vm_compute in Ha. injection Ha as <- <-.
  split; [reflexivity|exact Hm].
Defined.

Lemma recovered_name_has_no_quote_witness :
  contains_char dquote (original_filename_of (img (att_url "123") "pic.png") "123") = false.
Proof. apply (recovered_name_has_no_quote (img (att_url "123") "pic.png") "123"). reflexivity. Defined.

Lemma export_themes_never_raises_witness :
  exists st1,
    make_request (scripted [status_only 429 (Some http_date)]) 2
      (themes_url "userology") initial = Raise ValueError st1 /\
    export_themes (scripted [status_only 429 (Some http_date)]) "userology" 2 initial
    = Done tt st1.
Proof.
  eexists. split; [reflexivity|].
  destruct (export_themes_never_raises (scripted [status_only 429 (Some http_date)])
              "userology") as (_ & Hraise & _).
  apply (Hraise 2%nat initial ValueError). reflexivity.
Defined.

Lemma listing_stages_write_one_file_witness :
  exists st',
    export_categories (scripted [page1; page2]) "userology" 3 initial
    = Done [VInt 1; VInt 2; VInt 3] st' /\
    files st'
    = <[json_path "userology" "categories.json" := FJson (VList [VInt 1; VInt 2; VInt 3])]> ∅.
Proof.
  destruct (export_categories (scripted [page1; page2]) "userology" 3 initial)
    as [items st'|e st'|] eqn:E;
    [|vm_compute in E; discriminate|vm_compute in E; discriminate].
  destruct (listing_stages_write_one_file (scripted [page1; page2]) "userology")
    as (Hcat & _ & _).
  destruct (Hcat 3%nat initial items st' E) as [_ Hfiles].
  assert (items = [VInt 1; VInt 2; VInt 3]) as Hitems.
  { vm_compute in E. now injection E as <- _. }
  exists st'. subst items. split; [reflexivity|exact Hfiles].
Defined.
